(** * Cash-flow risk report: the decision-derivation engine of [script.js]

    A shallow embedding of the engine part of [src/script.js]: the two
    score classifiers, [determineDecision], [calculateCombinedScore],
    [processData], the sample generator and the criterion statistics
    used by [updateInsights]; then the data computed by the summary
    cards, the charts, the table with its pagination bar, and the
    checks of the CSV upload.

    JavaScript numbers are modelled by the type [number]: a finite
    value is an exact rational, and the three special values of IEEE
    754 that the code can produce ([0 / 0], [x / 0]) are kept as
    constructors.  Two idealisations are made: finite arithmetic is
    exact (binary64 rounding is not modelled), and there is a single
    zero.  The records and draws on which a statement of the
    specification is refuted below are dyadic rationals, and every
    intermediate value up to the last division by 10 is one too, so
    binary64 computes the same values there.  The theorems on the
    rounding of the combined score, on the criterion averages and on
    the values of the generator are stated for inputs on which
    binary64 arithmetic is exact as well (integer scores of bounded
    magnitude, draws that are multiples of 2^-32), and a quotient that
    the script rounds is written as a quotient of [number], not as a
    rational. *)

From Stdlib Require Import ZArith QArith Qround Lqa Lia Bool List String Ascii.
From Stdlib Require Import DecimalString DecimalNat FinFun.
Import ListNotations.

Local Open Scope list_scope.
Local Open Scope Q_scope.

(** ** JavaScript numbers *)

Module JS.

Inductive number : Type :=
| Num (q : Q)
| Infinity
| NegInfinity
| NaN.

(** Equality of numbers up to the representation of the rational. *)
Definition num_eq (a b : number) : Prop :=
  match a, b with
  | Num x, Num y => x == y
  | Infinity, Infinity => True
  | NegInfinity, NegInfinity => True
  | NaN, NaN => True
  | _, _ => False
  end.

Definition Qltb (x y : Q) : bool := negb (Qle_bool y x).
Definition Qis_zero (x : Q) : bool := Qeq_bool x 0.

Definition of_nat (n : nat) : number := Num (inject_Z (Z.of_nat n)).

(** [a >= b] *)
Definition ge (a b : number) : bool :=
  match a, b with
  | NaN, _ | _, NaN => false
  | Infinity, _ => true
  | _, NegInfinity => true
  | NegInfinity, _ => false
  | _, Infinity => false
  | Num x, Num y => Qle_bool y x
  end.

(** [a < b] *)
Definition lt (a b : number) : bool :=
  match a, b with
  | NaN, _ | _, NaN => false
  | Infinity, _ => false
  | _, NegInfinity => false
  | NegInfinity, _ => true
  | _, Infinity => true
  | Num x, Num y => Qltb x y
  end.

(** [a > b] *)
Definition gt (a b : number) : bool := lt b a.

(** [a === b] on numbers *)
Definition strict_eq (a b : number) : bool :=
  match a, b with
  | Num x, Num y => Qeq_bool x y
  | Infinity, Infinity => true
  | NegInfinity, NegInfinity => true
  | _, _ => false
  end.

Definition neg (a : number) : number :=
  match a with
  | Num x => Num (- x)
  | Infinity => NegInfinity
  | NegInfinity => Infinity
  | NaN => NaN
  end.

(** [a + b] *)
Definition add (a b : number) : number :=
  match a, b with
  | NaN, _ | _, NaN => NaN
  | Infinity, NegInfinity | NegInfinity, Infinity => NaN
  | Infinity, _ | _, Infinity => Infinity
  | NegInfinity, _ | _, NegInfinity => NegInfinity
  | Num x, Num y => Num (x + y)
  end.

(** [a - b] *)
Definition sub (a b : number) : number := add a (neg b).

Definition signed_inf (negative : bool) : number :=
  if negative then NegInfinity else Infinity.

Definition is_negative (a : number) : bool := lt a (Num 0).

(** [a * b] *)
Definition mul (a b : number) : number :=
  match a, b with
  | NaN, _ | _, NaN => NaN
  | Num x, Num y => Num (x * y)
  | Num x, _ =>
      if Qis_zero x then NaN else signed_inf (xorb (Qltb x 0) (is_negative b))
  | _, Num y =>
      if Qis_zero y then NaN else signed_inf (xorb (is_negative a) (Qltb y 0))
  | _, _ => signed_inf (xorb (is_negative a) (is_negative b))
  end.

(** [a / b]; the divisor zero is the positive zero. *)
Definition div (a b : number) : number :=
  match a, b with
  | NaN, _ | _, NaN => NaN
  | Num x, Num y =>
      if Qis_zero y then
        if Qis_zero x then NaN else signed_inf (Qltb x 0)
      else Num (x / y)
  | Num _, _ => Num 0
  | _, Num y => signed_inf (xorb (is_negative a) (Qltb y 0))
  | _, _ => NaN
  end.

(** [Math.floor] *)
Definition Math_floor (a : number) : number :=
  match a with
  | Num x => Num (inject_Z (Qfloor x))
  | _ => a
  end.

(** [Math.round]: the nearest integer, a tie going towards +Infinity. *)
Definition Math_round (a : number) : number :=
  match a with
  | Num x => Num (inject_Z (Qfloor (x + (1 # 2))))
  | _ => a
  end.

(** [Math.max] and [Math.min] of two arguments. *)
Definition Math_max (a b : number) : number :=
  match a, b with
  | NaN, _ | _, NaN => NaN
  | _, _ => if lt a b then b else a
  end.

Definition Math_min (a b : number) : number :=
  match a, b with
  | NaN, _ | _, NaN => NaN
  | _, _ => if lt b a then b else a
  end.

(** Truthiness of a number, and [a || b] on numbers. *)
Definition truthy (a : number) : bool :=
  match a with
  | Num x => negb (Qis_zero x)
  | NaN => false
  | _ => true
  end.

Definition or (a b : number) : number := if truthy a then a else b.

End JS.

Import JS.

Coercion Num : Q >-> number.

Declare Scope js_scope.
Delimit Scope js_scope with js.
Bind Scope js_scope with number.
Infix "+" := JS.add : js_scope.
Infix "-" := JS.sub : js_scope.
Infix "*" := JS.mul : js_scope.
Infix "/" := JS.div : js_scope.
Infix ">=" := JS.ge : js_scope.
Infix "<" := JS.lt : js_scope.
Infix ">" := JS.gt : js_scope.
Infix "||" := JS.or : js_scope.
Infix "=n=" := JS.num_eq (at level 70, no associativity).

(** ** Risk assessment configuration *)

Module RISK_THRESHOLDS.
Definition low : number := Num 70.
Definition moderate : number := Num 50.
Definition elevated : number := Num 35.
Definition high : number := Num 0.
End RISK_THRESHOLDS.

(** The short risk categories returned by [getCriteriaRisk]; they are
    also the keys of [riskCounts]. *)
Inductive CriteriaRisk : Type := low | moderate | elevated | high.

Definition CriteriaRisk_eqb (a b : CriteriaRisk) : bool :=
  match a, b with
  | low, low | moderate, moderate | elevated, elevated | high, high => true
  | _, _ => false
  end.

Local Open Scope string_scope.

Definition getRiskLevel (score : number) : string :=
  if (score >= RISK_THRESHOLDS.low)%js then "Low Risk"
  else if (score >= RISK_THRESHOLDS.moderate)%js then "Moderate Risk"
  else if (score >= RISK_THRESHOLDS.elevated)%js then "Elevated Risk"
  else "High Risk".

Definition getCriteriaRisk (score : number) : CriteriaRisk :=
  if (score >= RISK_THRESHOLDS.low)%js then low
  else if (score >= RISK_THRESHOLDS.moderate)%js then moderate
  else if (score >= RISK_THRESHOLDS.elevated)%js then elevated
  else high.

(** The long label that corresponds to a short category. *)
Definition risk_label (r : CriteriaRisk) : string :=
  match r with
  | low => "Low Risk"
  | moderate => "Moderate Risk"
  | elevated => "Elevated Risk"
  | high => "High Risk"
  end.

(** The short category that a long label names. *)
Definition risk_of_label (s : string) : option CriteriaRisk :=
  if String.eqb s "Low Risk" then Some low
  else if String.eqb s "Moderate Risk" then Some moderate
  else if String.eqb s "Elevated Risk" then Some elevated
  else if String.eqb s "High Risk" then Some high
  else None.

Local Close Scope string_scope.

(** ** Records *)

(** A raw customer record: the five fields every producer in the file
    writes ([generateSampleData] and the CSV handler). *)
Record CustomerRecord : Type := {
  customer_id : string;
  transaction_history : number;
  affordability : number;
  employment : number;
  behavior : number
}.

Inductive Decision : Type :=
| AutoApprove
| ManualReview
| ElevatedRisk
| AutoDeny.

Definition Decision_eqb (a b : Decision) : bool :=
  match a, b with
  | AutoApprove, AutoApprove | ManualReview, ManualReview
  | ElevatedRisk, ElevatedRisk | AutoDeny, AutoDeny => true
  | _, _ => false
  end.

Definition decision_label (d : Decision) : string :=
  match d with
  | AutoApprove => "Auto Approve"
  | ManualReview => "Manual Review"
  | ElevatedRisk => "Elevated Risk"
  | AutoDeny => "Auto Deny"
  end%string.

(** A processed record: the object literal built by [processData]. *)
Module Processed.
Record t : Type := {
    customer_id : string;
    transaction_history : number;
    affordability : number;
    employment : number;
    behavior : number;
    combined_score : number;
    risk_level : string;
    decision : Decision
  }.
End Processed.

(** ** Decision logic *)

(** The object [risks] of [determineDecision]. *)
Module Risks.
Record t : Type := {
    transaction : CriteriaRisk;
    affordability : CriteriaRisk;
    employment : CriteriaRisk;
    behavior : CriteriaRisk
  }.

  (** [Object.values(risks)], in insertion order. *)
Definition values (r : t) : list CriteriaRisk :=
    [transaction r; affordability r; employment r; behavior r].
End Risks.

(** The object [riskCounts]: one counter per category. *)
Definition RiskCounts : Type := CriteriaRisk -> nat.

Definition riskCounts_init : RiskCounts := fun _ => 0%nat.

(** [riskCounts[risk]++] *)
Definition increment (riskCounts : RiskCounts) (risk : CriteriaRisk) : RiskCounts :=
  fun k => if CriteriaRisk_eqb k risk then S (riskCounts k) else riskCounts k.

Definition determineDecision (customer : CustomerRecord) : Decision :=
  let risks := {|
    Risks.transaction := getCriteriaRisk (transaction_history customer);
    Risks.affordability := getCriteriaRisk (affordability customer);
    Risks.employment := getCriteriaRisk (employment customer);
    Risks.behavior := getCriteriaRisk (behavior customer)
  |} in
  let riskCounts := fold_left increment (Risks.values risks) riskCounts_init in
  if (0 <? riskCounts high)%nat then AutoDeny
  else if (2 <=? riskCounts elevated)%nat then AutoDeny
  else if CriteriaRisk_eqb (Risks.affordability risks) elevated
          && (riskCounts moderate =? 3)%nat then AutoDeny
  else if (riskCounts low =? 4)%nat then AutoApprove
  else if (2 <=? riskCounts low)%nat && (riskCounts elevated =? 0)%nat
       then AutoApprove
  else if (riskCounts elevated =? 1)%nat then ElevatedRisk
  else ManualReview.

Definition calculateCombinedScore (customer : CustomerRecord) : number :=
  ((transaction_history customer + affordability customer
    + employment customer + behavior customer) / Num 4)%js.

(** ** Data processing *)

(** The callback of [rawData.map] in [processData]. *)
Definition processCustomer (customer : CustomerRecord) : Processed.t :=
  let combinedScore := calculateCombinedScore customer in
  let riskLevel := getRiskLevel combinedScore in
  let decision := determineDecision customer in
  {| Processed.customer_id := customer_id customer;
     Processed.transaction_history := transaction_history customer;
     Processed.affordability := affordability customer;
     Processed.employment := employment customer;
     Processed.behavior := behavior customer;
     Processed.combined_score :=
       (Math_round (combinedScore * Num 10) / Num 10)%js;
     Processed.risk_level := riskLevel;
     Processed.decision := decision |}.

Definition processData (rawData : list CustomerRecord) : list Processed.t :=
  map processCustomer rawData.

(** *** [processData] over an explicit object store

    To speak about what [processData] leaves untouched, the same code
    is also given over a store of objects: an array is a list of
    references, [{...customer, ...}] allocates a fresh object, and the
    function reads its input through the references. *)
Module Store.

Inductive object : Type :=
  | Raw (c : CustomerRecord)
  | Done (p : Processed.t).

Definition ref : Type := nat.
Definition t : Type := list object.

Definition alloc (h : t) (o : object) : t * ref := (h ++ [o], List.length h).

Definition read (h : t) (r : ref) : option object := nth_error h r.

  (** One step of the [map]: read the customer, allocate the result.
      A reference that holds no customer record makes the step fail. *)
Definition processStep (acc : option (t * list ref)) (r : ref)
    : option (t * list ref) :=
    match acc with
    | None => None
    | Some (h, out) =>
        match read h r with
        | Some (Raw customer) =>
            let (h', r') := alloc h (Done (processCustomer customer)) in
            Some (h', out ++ [r'])
        | _ => None
        end
    end.

Definition processData (h : t) (rawData : list ref) : option (t * list ref) :=
    fold_left processStep rawData (Some (h, [])).

End Store.

(** ** Data generation *)

Inductive Profile : Type := excellent | good | fair | poor.

(** The criterion names passed to [generateScore]. *)
Module Criterion.
Inductive t : Type := transaction | affordability | employment | behavior.
End Criterion.

Module Range.
Record t : Type := { min : number; max : number }.
End Range.

Definition baseRanges (profile : Profile) : Range.t :=
  match profile with
  | excellent => {| Range.min := Num 70; Range.max := Num 100 |}
  | good => {| Range.min := Num 50; Range.max := Num 85 |}
  | fair => {| Range.min := Num 30; Range.max := Num 65 |}
  | poor => {| Range.min := Num 10; Range.max := Num 45 |}
  end.

Definition variation (criterion : Criterion.t) : number :=
  match criterion with
  | Criterion.transaction => Num 0
  | Criterion.affordability => Num (-5)
  | Criterion.employment => Num 5
  | Criterion.behavior => Num 0
  end.

(** [String(i)] for a natural number. *)
Definition String_of_nat (i : nat) : string :=
  NilEmpty.string_of_uint (Nat.to_uint i).

Fixpoint repeat_char (c : ascii) (n : nat) : string :=
  match n with
  | O => EmptyString
  | S k => String c (repeat_char c k)
  end.

(** [s.padStart(targetLength, c)] for a one-character pad string. *)
Definition padStart (targetLength : nat) (c : ascii) (s : string) : string :=
  (repeat_char c (targetLength - String.length s) ++ s)%string.

(** The template literal of [generateSampleData]. *)
Definition customerId (i : nat) : string :=
  ("CUST-" ++ padStart 4 "0"%char (String_of_nat i))%string.

(** Computations that call [Math.random]: the state is the number of
    draws made so far, and the [k]-th call returns [random k]. *)
Definition Rand (A : Type) : Type := nat -> A * nat.

Definition ret {A : Type} (a : A) : Rand A := fun k => (a, k).

Definition bind {A B : Type} (m : Rand A) (f : A -> Rand B) : Rand B :=
  fun k => let (a, k') := m k in f a k'.

Notation "x <- m ;; f" := (bind m (fun x => f))
  (at level 61, m at next level, right associativity).

Section Generator.

  (** The sequence of values that [Math.random] returns. *)
Variable random : nat -> Q.

Definition Math_random : Rand number := fun k => (Num (random k), S k).

Definition getRandomProfile : Rand Profile :=
    rand <- Math_random ;;
    ret (if (rand < Num (30 # 100))%js then excellent
         else if (rand < Num (70 # 100))%js then good
         else if (rand < Num (90 # 100))%js then fair
         else poor).

Definition generateScore (profile : Profile) (criterion : Criterion.t)
    : Rand number :=
    let range := baseRanges profile in
    r <- Math_random ;;
    let score :=
      Math_floor (r * (Range.max range - Range.min range + Num 1)
                  + Range.min range)%js in
    let score :=
      Math_max (Num 0)
        (Math_min (Num 100) (score + (variation criterion || Num 0))%js) in
    r' <- Math_random ;;
    let score := (score + (Math_floor (r' * Num 11) - Num 5))%js in
    ret (Math_max (Num 0) (Math_min (Num 100) score)).

  (** The body of the [for] loop, for the index [i]. *)
Definition generateCustomer (i : nat) : Rand CustomerRecord :=
    let customerId := customerId i in
    profile <- getRandomProfile ;;
    th <- generateScore profile Criterion.transaction ;;
    af <- generateScore profile Criterion.affordability ;;
    em <- generateScore profile Criterion.employment ;;
    be <- generateScore profile Criterion.behavior ;;
    ret {| customer_id := customerId;
           transaction_history := th;
           affordability := af;
           employment := em;
           behavior := be |}.

  (** [for (let i = ...; i <= count; i++) { ...; data.push(customer) }]
      with [remaining] iterations still to run. *)
Fixpoint generateLoop (remaining : nat) (i : nat) (data : list CustomerRecord)
    : Rand (list CustomerRecord) :=
    match remaining with
    | O => ret data
    | S k =>
        customer <- generateCustomer i ;;
        generateLoop k (S i) (data ++ [customer])
    end.

Definition generateSampleData (count : nat) : Rand (list CustomerRecord) :=
    generateLoop count 1%nat [].

End Generator.

(** ** Portfolio statistics *)

(** [d[criterion]] on a processed record; a key that names no numeric
    field reads [undefined], which behaves as [NaN] in a sum. *)
Definition get (d : Processed.t) (criterion : string) : number :=
  if String.eqb criterion "transaction_history" then Processed.transaction_history d
  else if String.eqb criterion "affordability" then Processed.affordability d
  else if String.eqb criterion "employment" then Processed.employment d
  else if String.eqb criterion "behavior" then Processed.behavior d
  else NaN.

Module Stat.
Record t : Type := { key : string; name : string; avgScore : number }.
End Stat.

(** [array.map((x, index) => ...)] *)
Fixpoint mapi_from {A B : Type} (f : A -> nat -> B) (index : nat) (l : list A)
  : list B :=
  match l with
  | [] => []
  | x :: t => f x index :: mapi_from f (S index) t
  end.

Definition mapi {A B : Type} (f : A -> nat -> B) (l : list A) : list B :=
  mapi_from f 0%nat l.

(** [array.reduce(f)] without an initial value: it throws a [TypeError]
    on the empty array, which is [None] here. *)
Definition reduce1 {A : Type} (f : A -> A -> A) (l : list A) : option A :=
  match l with
  | [] => None
  | x :: t => Some (fold_left f t x)
  end.

(** [scores.reduce((a, b) => a + b, 0) / scores.length] *)
Definition average (scores : list number) : number :=
  (fold_left JS.add scores (Num 0) / of_nat (List.length scores))%js.

(** The same division with the divisor inspected first: [None] when
    the divisor [scores.length] is zero.  The code has no such test;
    this variant only serves to say which divisions are by zero. *)
Definition average_checked (scores : list number) : option number :=
  let divisor := of_nat (List.length scores) in
  if strict_eq divisor (Num 0) then None
  else Some (fold_left JS.add scores (Num 0) / divisor)%js.

Definition analyzeCriteria (data : list Processed.t) : list Stat.t :=
  let criteria :=
    ["transaction_history"; "affordability"; "employment"; "behavior"]%string in
  let names :=
    ["Transaction History"; "Affordability"; "Employment"; "Behavior"]%string in
  mapi (fun criterion index =>
          let scores := map (fun d => get d criterion) data in
          let avgScore := average scores in
          {| Stat.key := criterion;
             Stat.name := nth index names EmptyString;
             Stat.avgScore := avgScore |})
       criteria.

(** The reducer [(a, b) => a.avgScore < b.avgScore ? a : b]. *)
Definition lowerAvgScore (a b : Stat.t) : Stat.t :=
  if (Stat.avgScore a < Stat.avgScore b)%js then a else b.

(** [criteriaStats.reduce((a, b) => a.avgScore < b.avgScore ? a : b)] *)
Definition weakestCriterion (data : list Processed.t) : option Stat.t :=
  reduce1 lowerAvgScore (analyzeCriteria data).

(** *** Summary cards *)

Definition countDecision (data : list Processed.t) (d : Decision) : nat :=
  List.length (filter (fun r => Decision_eqb (Processed.decision r) d) data).

Module Bars.
Record t : Type := {
    approveBar : number; reviewBar : number;
    elevatedBar : number; denyBar : number
  }.
End Bars.

(** The widths written by [updateSummaryCards], in percent; [None] when
    the bars are left as they are. *)
Definition progressBars (data : list Processed.t) : option Bars.t :=
  let total := of_nat (List.length data) in
  let pct (d : Decision) := (of_nat (countDecision data d) / total * Num 100)%js in
  if (total > Num 0)%js then
    Some {| Bars.approveBar := pct AutoApprove;
            Bars.reviewBar := pct ManualReview;
            Bars.elevatedBar := pct ElevatedRisk;
            Bars.denyBar := pct AutoDeny |}
  else None.

(** *** Insights *)

(** The number that the string [x.toFixed(1)] denotes: the nearest
    multiple of one tenth of the magnitude, a tie taking the larger
    one, with the sign put back. *)
Definition toFixed1 (x : number) : number :=
  match x with
  | Num q =>
      if Qltb q 0
      then Num (- (inject_Z (Qfloor (- q * 10 + (1 # 2))) / 10))
      else Num (inject_Z (Qfloor (q * 10 + (1 # 2))) / 10)
  | _ => x
  end.

Module Insight.
Record t : Type := { type : string; title : string }.
End Insight.

Inductive Container : Type :=
| Placeholder
| Rendered (insights : list Insight.t)
| TypeError.

Definition push_if {A : Type} (l : list A) (c : bool) (x : A) : list A :=
  if c then l ++ [x] else l.

Definition updateInsights (data : list Processed.t) : Container :=
  if (List.length data =? 0)%nat then Placeholder
  else
    let insights : list Insight.t := [] in
    let total := of_nat (List.length data) in
    let count (p : Processed.t -> bool) := of_nat (List.length (filter p data)) in
    let approvalRate :=
      toFixed1 (count (fun d => Decision_eqb (Processed.decision d) AutoApprove)
                / total * Num 100)%js in
    let denyRate :=
      toFixed1 (count (fun d => Decision_eqb (Processed.decision d) AutoDeny)
                / total * Num 100)%js in
    let reviewRate :=
      toFixed1 (count (fun d => orb (Decision_eqb (Processed.decision d) ManualReview)
                                 (Decision_eqb (Processed.decision d) ElevatedRisk))
                / total * Num 100)%js in
    let insights :=
      if (approvalRate >= Num 50)%js then
        insights ++ [{| Insight.type := "positive";
                        Insight.title := "Strong Portfolio Health" |}]
      else if (denyRate >= Num 30)%js then
        insights ++ [{| Insight.type := "negative";
                        Insight.title := "High Denial Rate Alert" |}]
      else insights in
    let insights :=
      push_if insights (reviewRate >= Num 30)%js
        {| Insight.type := "warning";
           Insight.title := "High Manual Review Volume" |} in
    match weakestCriterion data with
    | None => TypeError
    | Some weakestCriterion =>
        let insights :=
          push_if insights (Stat.avgScore weakestCriterion < Num 60)%js
            {| Insight.type := "warning";
               Insight.title :=
                 ("Weak " ++ Stat.name weakestCriterion ++ " Scores")%string |} in
        let highRiskTransactions :=
          count (fun d =>
                   CriteriaRisk_eqb
                     (getCriteriaRisk (Processed.transaction_history d)) high) in
        let insights :=
          push_if insights (highRiskTransactions / total > Num (15 # 100))%js
            {| Insight.type := "negative";
               Insight.title := "Transaction History Red Flag" |} in
        let behaviorIssues :=
          count (fun d =>
                   orb
                     (CriteriaRisk_eqb (getCriteriaRisk (Processed.behavior d)) high)
                     (CriteriaRisk_eqb (getCriteriaRisk (Processed.behavior d))
                        elevated)) in
        let insights :=
          push_if insights (behaviorIssues / total > Num (2 # 10))%js
            {| Insight.type := "negative";
               Insight.title := "Behavioral Risk Concentration" |} in
        let insights :=
          push_if insights (List.length insights =? 0)%nat
            {| Insight.type := "positive";
               Insight.title := "Balanced Risk Profile" |} in
        Rendered insights
    end.

(** ** The specification's reading of the engine

    These definitions follow the words of the specification, not the
    code; the theorems below compare them with the code. *)
Module Spec.

  (** The four tiers of one record, in the fixed field order. *)
Definition Tiers : Type := Risks.t.

  (** Whether a tier is the tier [x]. *)
Definition is_tier (x r : CriteriaRisk) : bool :=
    match x, r with
    | high, high | elevated, elevated | moderate, moderate | low, low => true
    | _, _ => false
    end.

  (** [tally t x]: how many of the four tiers (transaction,
      affordability, employment, behavior) are [x]. *)
Definition tally (t : Tiers) (x : CriteriaRisk) : nat :=
    ((if is_tier x (Risks.transaction t) then 1 else 0)
     + (if is_tier x (Risks.affordability t) then 1 else 0)
     + (if is_tier x (Risks.employment t) then 1 else 0)
     + (if is_tier x (Risks.behavior t) then 1 else 0))%nat.

  (** The ordered decision table: the first rule that matches wins. *)
Definition rules : list ((Tiers -> bool) * Decision) :=
    [ (fun t => (0 <? tally t high)%nat, AutoDeny);
      (fun t => (2 <=? tally t elevated)%nat, AutoDeny);
      (fun t => is_tier elevated (Risks.affordability t)
                && (tally t moderate =? 3)%nat, AutoDeny);
      (fun t => (tally t low =? 4)%nat, AutoApprove);
      (fun t => (2 <=? tally t low)%nat && (tally t elevated =? 0)%nat,
        AutoApprove);
      (fun t => (tally t elevated =? 1)%nat, ElevatedRisk) ].

Fixpoint first_match (rs : list ((Tiers -> bool) * Decision)) (t : Tiers)
    : Decision :=
    match rs with
    | [] => ManualReview
    | (p, d) :: rest => if p t then d else first_match rest t
    end.

Definition decide (t : Tiers) : Decision := first_match rules t.

  (** The tiers of a record, through the classifier. *)
Definition tiers_of (c : CustomerRecord) : Tiers :=
    {| Risks.transaction := getCriteriaRisk (transaction_history c);
       Risks.affordability := getCriteriaRisk (affordability c);
       Risks.employment := getCriteriaRisk (employment c);
       Risks.behavior := getCriteriaRisk (behavior c) |}.

  (** The arithmetic mean of four values. *)
Definition mean4 (a b c d : Q) : Q := (a + b + c + d) / 4.


  (** Base range, offset and the two integer draws of the generator. *)
Definition baseRange (p : Profile) : Z * Z :=
    match p with
    | excellent => (70, 100)
    | good => (50, 85)
    | fair => (30, 65)
    | poor => (10, 45)
    end%Z.

Definition offset (c : Criterion.t) : Z :=
    match c with
    | Criterion.affordability => -5
    | Criterion.employment => 5
    | _ => 0
    end%Z.

Definition clamp (z : Z) : Z := Z.max 0 (Z.min 100 z).

  (** A uniform integer of the base range from a draw [r] of [0, 1). *)
Definition base_draw (p : Profile) (r : Q) : Z :=
    let (lo, hi) := baseRange p in
    (lo + Qfloor (r * inject_Z (hi - lo + 1)))%Z.

  (** A uniform integer of [-5, 5] from a draw [r] of [0, 1). *)
Definition noise_draw (r : Q) : Z := (Qfloor (r * 11) - 5)%Z.


  (** The offset added and clamped, then the noise added and clamped. *)
Definition score_clamped_twice (p : Profile) (c : Criterion.t) (r r' : Q) : Z :=
    clamp (clamp (base_draw p r + offset c) + noise_draw r').

End Spec.

(** A number of the closed interval from 0 to 100. *)
Definition in_0_100 (x : number) : bool := (x >= Num 0)%js && (Num 100 >= x)%js.

Definition scores_in_0_100 (c : CustomerRecord) : bool :=
  in_0_100 (transaction_history c) && in_0_100 (affordability c)
  && in_0_100 (employment c) && in_0_100 (behavior c).

(** The customer number that an identifier denotes. *)
Definition customerNumber (id : string) : option nat :=
  match id with
  | String "C" (String "U" (String "S" (String "T" (String "-" digits)))) =>
      option_map Nat.of_uint (NilEmpty.uint_of_string digits)
  | _ => None
  end.

(** ** Inputs on which binary64 arithmetic is exact

    The arithmetic of [number] is exact.  On the inputs described here
    every sum, product and quotient by 4 that the script forms is a
    binary64 number as well, so that the script computes the very
    values of the model. *)







(** The binary64 value of the literal [0.30]. *)
Definition double_0_30 : Q := 5404319552844595 # 18014398509481984.

(** Test data *)

Definition all_decisions : list Decision :=
  [AutoApprove; ManualReview; ElevatedRisk; AutoDeny].

(** A record with the given four finite scores. *)
Definition record (th af em be : Q) : CustomerRecord :=
  {| customer_id := "CUST-0001";
     transaction_history := Num th; affordability := Num af;
     employment := Num em; behavior := Num be |}.

(** A batch of one record whose four scores are all 50. *)
Definition tied_batch : list Processed.t := processData [record 50 50 50 50].



(** A store that holds one raw record, at the reference 0. *)
Definition one_record_store : Store.t := [Store.Raw (record 50 50 50 50)].

(** * Further parts of the script *)

(** ** Orders on tiers and decisions

    The tiers from the worst to the best, and the decisions in the
    reverse of the order in which the script lists them (Auto Approve,
    Manual Review, Elevated Risk, Auto Deny). *)
Definition tier_rank (r : CriteriaRisk) : nat :=
  match r with
  | high => 0
  | elevated => 1
  | moderate => 2
  | low => 3
  end%nat.

Definition decision_rank (d : Decision) : nat :=
  match d with
  | AutoDeny => 0
  | ElevatedRisk => 1
  | ManualReview => 2
  | AutoApprove => 3
  end%nat.

(** How many of the values are at least [t], and how many lie in the
    half-open interval from [lo] to [hi]. *)
Definition count_ge (t : Q) (l : list Q) : nat :=
  List.length (filter (fun q => Qle_bool t q) l).

Definition count_in (lo hi : Q) (l : list Q) : nat :=
  List.length (filter (fun q => Qle_bool lo q && negb (Qle_bool hi q)) l).

(** [determineDecision] with the test [riskCounts.low === 4] left out. *)
Definition determineDecision_without_all_low (customer : CustomerRecord)
  : Decision :=
  let risks := Spec.tiers_of customer in
  let riskCounts := fold_left increment (Risks.values risks) riskCounts_init in
  if (0 <? riskCounts high)%nat then AutoDeny
  else if (2 <=? riskCounts elevated)%nat then AutoDeny
  else if CriteriaRisk_eqb (Risks.affordability risks) elevated
          && (riskCounts moderate =? 3)%nat then AutoDeny
  else if (2 <=? riskCounts low)%nat && (riskCounts elevated =? 0)%nat
       then AutoApprove
  else if (riskCounts elevated =? 1)%nat then ElevatedRisk
  else ManualReview.

Definition all_tiers : list CriteriaRisk := [high; elevated; moderate; low].

(** Whether the decision never gets worse when the tiers [t] are
    raised to the tiers [u]. *)
Definition tiers_le (t u : Risks.t) : bool :=
  (tier_rank (Risks.transaction t) <=? tier_rank (Risks.transaction u))%nat
  && (tier_rank (Risks.affordability t) <=? tier_rank (Risks.affordability u))%nat
  && (tier_rank (Risks.employment t) <=? tier_rank (Risks.employment u))%nat
  && (tier_rank (Risks.behavior t) <=? tier_rank (Risks.behavior u))%nat.

Definition all_tier_tuples : list Risks.t :=
  flat_map (fun a =>
    flat_map (fun b =>
      flat_map (fun c =>
        map (fun d =>
               {| Risks.transaction := a; Risks.affordability := b;
                  Risks.employment := c; Risks.behavior := d |})
            all_tiers)
        all_tiers)
      all_tiers)
    all_tiers.

Definition decide_monotone_check : bool :=
  forallb (fun t =>
    forallb (fun u =>
      implb (tiers_le t u)
            (decision_rank (Spec.decide t) <=? decision_rank (Spec.decide u))%nat)
      all_tier_tuples)
    all_tier_tuples.

(** Two more sequences of draws: every draw 1/10, and every draw 19/20. *)
Definition always_tenth (k : nat) : Q := 1 # 10.

Definition always_top (k : nat) : Q := 19 # 20.

(** The insights that [updateInsights] can push, by name. *)
Definition insight_strong : Insight.t :=
  {| Insight.type := "positive"; Insight.title := "Strong Portfolio Health" |}.

Definition insight_denial : Insight.t :=
  {| Insight.type := "negative"; Insight.title := "High Denial Rate Alert" |}.

Definition insight_balanced : Insight.t :=
  {| Insight.type := "positive"; Insight.title := "Balanced Risk Profile" |}.

(** ** Charts

    The data computed by the chart functions; the drawing itself
    (Plotly) is outside the model. *)

(** [values.push(values[0])]; the array always has four elements here. *)
Definition closePolygon (values : list number) : list number :=
  values ++ [hd NaN values].

Module Radar.
Record t : Type := { r : list number; name : string }.
End Radar.

(** [data.reduce((sum, d) => sum + d.field, 0) / data.length] *)
Definition radarAverage (data : list Processed.t) (field : Processed.t -> number)
  : number :=
  (fold_left (fun sum d => sum + field d)%js data (Num 0)
   / of_nat (List.length data))%js.

(** The trace drawn by [renderRadarChart]; [None] when the function
    returns without drawing. *)
Definition renderRadarChart (data : list Processed.t) (customerId : string)
  : option Radar.t :=
  if String.eqb customerId "all" then
    let values :=
      [ radarAverage data Processed.transaction_history;
        radarAverage data Processed.affordability;
        radarAverage data Processed.employment;
        radarAverage data Processed.behavior ] in
    Some {| Radar.r := closePolygon values; Radar.name := "Portfolio Average" |}
  else
    match find (fun d => String.eqb (Processed.customer_id d) customerId) data with
    | None => None
    | Some customer =>
        let values :=
          [ Processed.transaction_history customer;
            Processed.affordability customer;
            Processed.employment customer;
            Processed.behavior customer ] in
        Some {| Radar.r := closePolygon values; Radar.name := customerId |}
    end.

Module Trace.
Record t : Type := { name : string; y : list nat }.
End Trace.

(** The traces of [renderCriteriaBreakdownChart]: for each risk level,
    the number of records at that level for each criterion. *)
Definition renderCriteriaBreakdownChart (data : list Processed.t)
  : list Trace.t :=
  let criteria :=
    ["transaction_history"; "affordability"; "employment"; "behavior"]%string in
  let riskLevels :=
    ["Low Risk"; "Moderate Risk"; "Elevated Risk"; "High Risk"]%string in
  map (fun level =>
         let counts :=
           map (fun criterion =>
                  List.length
                    (filter (fun d => String.eqb (getRiskLevel (get d criterion))
                                        level) data))
               criteria in
         {| Trace.name := level; Trace.y := counts |})
      riskLevels.

(** ** Table rendering *)

(** [Math.ceil] *)
Definition Math_ceil (a : number) : number :=
  match a with
  | Num x => Num (inject_Z (Qceiling x))
  | _ => a
  end.

(** [array.slice(start, end)] with integer arguments: a negative index
    counts from the end, and both are clamped to the array. *)
Definition slice {A : Type} (l : list A) (start end_ : Z) : list A :=
  let len := Z.of_nat (List.length l) in
  let from := if (start <? 0)%Z then Z.max (len + start) 0 else Z.min start len in
  let to := if (end_ <? 0)%Z then Z.max (len + end_) 0 else Z.min end_ len in
  firstn (Z.to_nat (to - from)) (skipn (Z.to_nat from) l).

(** [AppState.pagination]; the script sets [itemsPerPage] to 15 and
    never changes it. *)
Module Pagination.
Record t : Type := { currentPage : Z; itemsPerPage : nat }.
End Pagination.

(** [pageData] of [renderTable]. *)
Definition pageData (filteredData : list Processed.t) (pagination : Pagination.t)
  : list Processed.t :=
  let start :=
    ((Pagination.currentPage pagination - 1)
     * Z.of_nat (Pagination.itemsPerPage pagination))%Z in
  let end_ := (start + Z.of_nat (Pagination.itemsPerPage pagination))%Z in
  slice filteredData start end_.

(** The numbers of the line "Showing a-b of total records" written by
    [renderTable]; [None] when the page is empty and the placeholder
    row is shown instead. *)
Definition tableInfo (filteredData : list Processed.t) (pagination : Pagination.t)
  : option (Z * Z * Z) :=
  let start :=
    ((Pagination.currentPage pagination - 1)
     * Z.of_nat (Pagination.itemsPerPage pagination))%Z in
  let end_ := (start + Z.of_nat (Pagination.itemsPerPage pagination))%Z in
  if (List.length (pageData filteredData pagination) =? 0)%nat then None
  else
    let total := Z.of_nat (List.length filteredData) in
    Some ((start + 1)%Z, Z.min end_ total, total).

(** A button of the pagination bar: whether it is disabled, whether it
    carries the class [active], and its [data-page] attribute. *)
Module Button.
Record t : Type := { disabled : bool; active : bool; dataPage : option Z }.
End Button.

(** [Math.ceil(total / itemsPerPage)] *)
Definition totalPages (total : nat) (pagination : Pagination.t) : number :=
  Math_ceil (of_nat total / of_nat (Pagination.itemsPerPage pagination))%js.

(** The buttons that one round of the [for] loop appends. *)
Definition pageButtons (currentPage totalPages i : Z) : list Button.t :=
  if (i =? 1)%Z || (i =? totalPages)%Z
     || ((currentPage - 1 <=? i)%Z && (i <=? currentPage + 1)%Z)
  then [{| Button.disabled := false; Button.active := (i =? currentPage)%Z;
           Button.dataPage := Some i |}]
  else if (i =? currentPage - 2)%Z || (i =? currentPage + 2)%Z
  then [{| Button.disabled := true; Button.active := false;
           Button.dataPage := None |}]
  else [].

Inductive PaginationBar : Type :=
| Cleared
| Buttons (buttons : list Button.t)
| Unbounded.

(** [renderPagination].  The loop runs for [i = 1, 2, ...] while
    [i <= totalPages]; it does not end when [totalPages] is
    [Infinity], which is [Unbounded] here. *)
Definition renderPagination (filteredData : list Processed.t)
  (pagination : Pagination.t) : PaginationBar :=
  let currentPage := Pagination.currentPage pagination in
  let total := List.length filteredData in
  match totalPages total pagination with
  | Num q =>
      if Qle_bool q 1 then Cleared
      else
        let last := Qfloor q in
        Buttons
          ([{| Button.disabled := (currentPage =? 1)%Z; Button.active := false;
               Button.dataPage := Some (currentPage - 1)%Z |}]
           ++ flat_map (fun i => pageButtons currentPage last (Z.of_nat i))
                (seq 1 (Z.to_nat last))
           ++ [{| Button.disabled := (currentPage =? last)%Z;
                  Button.active := false;
                  Button.dataPage := Some (currentPage + 1)%Z |}])
  | Infinity => Unbounded
  | NegInfinity => Cleared
  | NaN =>
      Buttons
        [{| Button.disabled := (currentPage =? 1)%Z; Button.active := false;
            Button.dataPage := Some (currentPage - 1)%Z |};
         {| Button.disabled := false; Button.active := false;
            Button.dataPage := Some (currentPage + 1)%Z |}]
  end.

(** The click handler of the pagination bar: a click on a button that
    is not disabled sets [currentPage] to [parseInt(dataset.page)],
    which is [None] here when the button has no [data-page]. *)
Definition clickPage (pagination : Pagination.t) (button : Button.t)
  : option Pagination.t :=
  if Button.disabled button then Some pagination
  else
    match Button.dataPage button with
    | Some page =>
        Some {| Pagination.currentPage := page;
                Pagination.itemsPerPage := Pagination.itemsPerPage pagination |}
    | None => None
    end.

(** A pagination state whose current page exists: it is at least 1 and
    its first row lies inside the filtered records. *)
Definition page_exists (filteredData : list Processed.t)
  (pagination : Pagination.t) : Prop :=
  (1 <= Pagination.currentPage pagination)%Z
  /\ ((Pagination.currentPage pagination - 1)
      * Z.of_nat (Pagination.itemsPerPage pagination)
      < Z.of_nat (List.length filteredData))%Z.

(** A batch of forty copies of one record, and the pagination state of
    its second page. *)
Definition forty_records : list Processed.t :=
  repeat (processCustomer (record 50 50 50 50)) 40.

Definition second_page : Pagination.t :=
  {| Pagination.currentPage := 2; Pagination.itemsPerPage := 15 |}.

(** ** CSS classes of the table cells *)

(** The string that [getCriteriaRisk] returns for a category. *)
Definition criteria_risk_key (r : CriteriaRisk) : string :=
  match r with
  | low => "low"
  | moderate => "moderate"
  | elevated => "elevated"
  | high => "high"
  end%string.

Definition getScoreClass (score : number) : string :=
  let risk := getCriteriaRisk score in
  ("score-" ++ criteria_risk_key risk)%string.

(** [mapping[riskLevel] || ''], for the keys of the object literal; the
    properties that an object inherits are not modelled. *)
Definition getRiskBadgeClass (riskLevel : string) : string :=
  if String.eqb riskLevel "Low Risk" then "low"
  else if String.eqb riskLevel "Moderate Risk" then "moderate"
  else if String.eqb riskLevel "Elevated Risk" then "elevated"
  else if String.eqb riskLevel "High Risk" then "high"
  else ""%string.

Definition getDecisionClass (decision : string) : string :=
  if String.eqb decision "Auto Approve" then "decision-approve"
  else if String.eqb decision "Manual Review" then "decision-review"
  else if String.eqb decision "Elevated Risk" then "decision-elevated"
  else if String.eqb decision "Auto Deny" then "decision-deny"
  else ""%string.

(** ** CSV upload

    Strings are sequences of code units of the Latin-1 range; on these
    the functions below are [toLowerCase], the white space of [trim]
    and of [\s], [includes] and [replace]. *)

Definition toLowerCase_char (c : ascii) : ascii :=
  let n := nat_of_ascii c in
  if ((65 <=? n) && (n <=? 90))%nat
     || ((192 <=? n) && (n <=? 222) && negb (n =? 215))%nat
  then ascii_of_nat (n + 32)
  else c.

Fixpoint toLowerCase (s : string) : string :=
  match s with
  | EmptyString => EmptyString
  | String c s' => String (toLowerCase_char c) (toLowerCase s')
  end.

Definition is_space (c : ascii) : bool :=
  let n := nat_of_ascii c in
  (((9 <=? n) && (n <=? 13)) || (n =? 32) || (n =? 160))%nat.

Fixpoint trimStart (s : string) : string :=
  match s with
  | EmptyString => EmptyString
  | String c s' => if is_space c then trimStart s' else s
  end.

Fixpoint trimEnd (s : string) : string :=
  match s with
  | EmptyString => EmptyString
  | String c s' =>
      match trimEnd s' with
      | EmptyString => if is_space c then EmptyString else String c EmptyString
      | t => String c t
      end
  end.

Definition trim (s : string) : string := trimStart (trimEnd s).

Fixpoint startsWith (s sub : string) : bool :=
  match sub, s with
  | EmptyString, _ => true
  | String c sub', String d s' => Ascii.eqb c d && startsWith s' sub'
  | String _ _, EmptyString => false
  end.

(** [s.includes(sub)] *)
Fixpoint includes (s sub : string) : bool :=
  startsWith s sub
  || match s with
     | EmptyString => false
     | String _ s' => includes s' sub
     end.

(** [s.replace('_', '')]: the first underscore is removed. *)
Fixpoint removeFirstUnderscore (s : string) : string :=
  match s with
  | EmptyString => EmptyString
  | String c s' =>
      if Ascii.eqb c "_" then s' else String c (removeFirstUnderscore s')
  end.

(** [s.replace(/\s+/g, '_')]: every maximal run of white space becomes
    one underscore; [in_run] tells that the previous character was
    white space. *)
Fixpoint replaceSpaces (in_run : bool) (s : string) : string :=
  match s with
  | EmptyString => EmptyString
  | String c s' =>
      if is_space c then
        if in_run then replaceSpaces true s'
        else String "_" (replaceSpaces true s')
      else String c (replaceSpaces false s')
  end.

(** A string without white space. *)
Fixpoint no_space (w : string) : bool :=
  match w with
  | EmptyString => true
  | String c w' => negb (is_space c) && no_space w'
  end.

(** [key.toLowerCase().trim().replace(/\s+/g, '_')] *)
Definition normalizedKey (key : string) : string :=
  replaceSpaces false (trim (toLowerCase key)).

(** A parsed row: the column names of the file with the cell under each. *)
Definition Row : Type := list (string * string).

(** [obj[key] = value] on an object kept as an association list. *)
Fixpoint assign (obj : Row) (key value : string) : Row :=
  match obj with
  | [] => [(key, value)]
  | (k, v) :: rest =>
      if String.eqb k key then (k, value) :: rest
      else (k, v) :: assign rest key value
  end.

(** [obj[key]]; [None] is [undefined]. *)
Definition lookup (obj : Row) (key : string) : option string :=
  option_map snd (find (fun kv => String.eqb (fst kv) key) obj).

(** The object [normalized] built by the [forEach] over the keys. *)
Definition normalize (row : Row) : Row :=
  fold_left (fun normalized kv => assign normalized (normalizedKey (fst kv)) (snd kv))
            row [].

Definition requiredColumns : list string :=
  ["customer_id"; "transaction_history"; "affordability"; "employment";
   "behavior"]%string.

Inductive UploadResult : Type :=
| MissingColumns (missingColumns : list string)
| NoValidData
| Loaded (data : list CustomerRecord) (invalidCount : nat).

Section Upload.

(** [parseFloat] applied to a cell or to [undefined]; its result is any
    number, [NaN] included. *)
Variable parseFloat : option string -> number.

(** The callback of [results.data.map]. *)
Definition toRecord (row : Row) : CustomerRecord :=
  let normalized := normalize row in
  {| customer_id :=
       trim (match lookup normalized "customer_id" with
             | Some v => if String.eqb v "" then ""%string else v
             | None => ""%string
             end);
     transaction_history :=
       (parseFloat (lookup normalized "transaction_history") || Num 0)%js;
     affordability :=
       (parseFloat (lookup normalized "affordability") || Num 0)%js;
     employment := (parseFloat (lookup normalized "employment") || Num 0)%js;
     behavior := (parseFloat (lookup normalized "behavior") || Num 0)%js |}.

Definition isNaN (x : number) : bool :=
  match x with NaN => true | _ => false end.

(** The callback of the [filter]. *)
Definition validRow (row : CustomerRecord) : bool :=
  negb (String.eqb (customer_id row) "")
  && negb (isNaN (transaction_history row))
  && negb (isNaN (affordability row))
  && negb (isNaN (employment row))
  && negb (isNaN (behavior row)).

(** The [complete] callback of [processCSVFile], up to the point where
    the data is stored and processed. *)
Definition processCSVFile (rows : list Row) : UploadResult :=
  let columns :=
    map (fun c => trim (toLowerCase c))
        (map fst (match rows with [] => [] | first :: _ => first end)) in
  let missingColumns :=
    filter (fun col =>
              negb (existsb (fun c => includes c (removeFirstUnderscore col))
                            columns))
           requiredColumns in
  if (0 <? List.length missingColumns)%nat then MissingColumns missingColumns
  else
    let mapped := map toRecord rows in
    let data := filter validRow mapped in
    let invalidCount := List.length (filter (fun r => negb (validRow r)) mapped) in
    if (List.length data =? 0)%nat then NoValidData
    else Loaded data invalidCount.

End Upload.

(** The header of the sample file in the README, and the header that
    [exportData] writes. *)
Definition readme_header : list string :=
  ["customer_id"; "transaction_history"; "affordability"; "employment";
   "behavior"]%string.

Definition export_header : list string :=
  ["Customer ID"; "Transaction History"; "Affordability"; "Employment";
   "Behavior"; "Combined Score"; "Risk Level"; "Decision"]%string.

(** A parser for the examples: every cell reads as 50. *)
Definition parse_fifty (cell : option string) : number := Num 50.

(** A parser for the examples: a cell of decimal digits reads as the
    number it writes, as under [parseFloat]; every other cell of the
    examples, and [undefined], reads as [NaN]. *)
Definition parse_digits (cell : option string) : number :=
  match cell with
  | Some s =>
      match NilZero.uint_of_string s with
      | Some u => JS.of_nat (Nat.of_uint u)
      | None => NaN
      end
  | None => NaN
  end.

(** A row of a file whose column names pass the test of the upload, with
    an affordability cell that is not a number. *)
Definition unparsed_row : Row :=
  [("customer_id", "CUST-0001"); ("customerid", "1");
   ("transaction_history", "85"); ("transactionhistory", "85");
   ("affordability", "n/a"); ("employment", "90"); ("behavior", "88")]%string.

(** The first data row of the sample file in the README. *)
Definition readme_row : Row :=
  [("customer_id", "CUST-0001"); ("transaction_history", "85");
   ("affordability", "72"); ("employment", "90"); ("behavior", "88")]%string.

(** * Properties *)

(** ** Numbers *)

Ltac qbool :=
  repeat match goal with
  | H : Qle_bool _ _ = true |- _ => apply Qle_bool_iff in H
  | H : Qle_bool _ _ = false |- _ =>
      apply not_true_iff_false in H; rewrite Qle_bool_iff in H
  | H : Qeq_bool _ _ = true |- _ => apply Qeq_bool_iff in H
  | H : Qeq_bool _ _ = false |- _ =>
      apply not_true_iff_false in H; rewrite Qeq_bool_iff in H
  end.

Lemma num_eq_refl (a : number) : a =n= a.
Proof. destruct a; simpl; auto. reflexivity. Qed.

Lemma num_eq_sym (a b : number) : a =n= b -> b =n= a.
Proof. destruct a, b; simpl; auto. intros H; symmetry; exact H. Qed.

Lemma num_eq_trans (a b c : number) : a =n= b -> b =n= c -> a =n= c.
Proof.
  destruct a, b, c; simpl; auto; try contradiction.
  intros H1 H2; rewrite H1; exact H2.
Qed.

Lemma ge_Num (x y : Q) : (Num x >= Num y)%js = true <-> y <= x.
Proof. simpl. apply Qle_bool_iff. Qed.

Lemma ge_Num_false (x y : Q) : (Num x >= Num y)%js = false <-> x < y.
Proof.
  simpl. split; intros H.
  - qbool. lra.
  - apply not_true_iff_false. rewrite Qle_bool_iff. lra.
Qed.

Lemma lt_Num (x y : Q) : (Num x < Num y)%js = true <-> x < y.
Proof.
  simpl. unfold Qltb. rewrite negb_true_iff. split; intros H.
  - qbool. lra.
  - apply not_true_iff_false. rewrite Qle_bool_iff. lra.
Qed.

Lemma lt_Num_false (x y : Q) : (Num x < Num y)%js = false <-> y <= x.
Proof.
  simpl. unfold Qltb. rewrite negb_false_iff. apply Qle_bool_iff.
Qed.

(** ** The classifiers *)

(** C2: on every real score the classifier is total and the tiers are
    closed below and open above at exactly 35, 50 and 70, for both
    classifier functions; 69.999 is Moderate and 70 is Low. *)
Theorem classify_thresholds (q : Q) :
  (getCriteriaRisk (Num q) = low <-> 70 <= q)
  /\ (getCriteriaRisk (Num q) = moderate <-> 50 <= q < 70)
  /\ (getCriteriaRisk (Num q) = elevated <-> 35 <= q < 50)
  /\ (getCriteriaRisk (Num q) = high <-> q < 35)
  /\ (getRiskLevel (Num q) = "Low Risk"%string <-> 70 <= q)
  /\ (getRiskLevel (Num q) = "Moderate Risk"%string <-> 50 <= q < 70)
  /\ (getRiskLevel (Num q) = "Elevated Risk"%string <-> 35 <= q < 50)
  /\ (getRiskLevel (Num q) = "High Risk"%string <-> q < 35)
  /\ getCriteriaRisk (Num (69999 # 1000)) = moderate
  /\ getCriteriaRisk (Num 70) = low.
Proof.
  unfold getCriteriaRisk, getRiskLevel, RISK_THRESHOLDS.low,
    RISK_THRESHOLDS.moderate, RISK_THRESHOLDS.elevated.
  destruct (Num q >= Num 70)%js eqn:E70;
  destruct (Num q >= Num 50)%js eqn:E50;
  destruct (Num q >= Num 35)%js eqn:E35;
  repeat match goal with
  | H : (_ >= _)%js = true |- _ => apply ge_Num in H
  | H : (_ >= _)%js = false |- _ => apply ge_Num_false in H
  end;
  repeat split; intros; try discriminate; try reflexivity; try lra.
Qed.

(** Outside the reals: [NaN] fails every comparison and falls through
    to the last branch, and the infinities land on the outer tiers. *)
Lemma classify_special :
  getCriteriaRisk NaN = high /\ getCriteriaRisk Infinity = low
  /\ getCriteriaRisk NegInfinity = high.
Proof. repeat split. Qed.

Lemma getRiskLevel_label (s : number) :
  getRiskLevel s = risk_label (getCriteriaRisk s).
Proof.
  unfold getRiskLevel, getCriteriaRisk.
  destruct (s >= RISK_THRESHOLDS.low)%js;
  destruct (s >= RISK_THRESHOLDS.moderate)%js;
  destruct (s >= RISK_THRESHOLDS.elevated)%js; reflexivity.
Qed.

Lemma risk_of_label_label (r : CriteriaRisk) : risk_of_label (risk_label r) = Some r.
Proof. destruct r; reflexivity. Qed.

(** C10: on every number the two classifiers return the same tier up
    to the naming of the labels: each result is the other's label. *)
Theorem classifiers_agree (s : number) :
  getRiskLevel s = risk_label (getCriteriaRisk s)
  /\ risk_of_label (getRiskLevel s) = Some (getCriteriaRisk s).
Proof.
  split; [apply getRiskLevel_label |].
  rewrite getRiskLevel_label. apply risk_of_label_label.
Qed.

(** ** The decision engine *)

(** C1: on every record [determineDecision] classifies the four scores,
    tallies the tiers and returns the outcome of the first matching
    rule of the ordered table (1)-(7); the result is one of the four
    decisions. *)
Theorem determineDecision_first_match (customer : CustomerRecord) :
  determineDecision customer = Spec.decide (Spec.tiers_of customer)
  /\ In (determineDecision customer) all_decisions.
Proof.
  unfold determineDecision, Spec.decide, Spec.tiers_of.
  destruct (getCriteriaRisk (transaction_history customer));
  destruct (getCriteriaRisk (affordability customer));
  destruct (getCriteriaRisk (employment customer));
  destruct (getCriteriaRisk (behavior customer));
  (split; [reflexivity | simpl; tauto]).
Qed.

(** The counters built by the [forEach] are the tallies. *)
Lemma riskCounts_tally (t : Risks.t) (x : CriteriaRisk) :
  fold_left increment (Risks.values t) riskCounts_init x = Spec.tally t x.
Proof. destruct t as [a b c d]; destruct a, b, c, d, x; reflexivity. Qed.

(** The decisions listed among the testable properties. *)
Example decide_all_low : determineDecision (record 100 100 100 100) = AutoApprove.
Proof. reflexivity. Qed.

Example decide_two_low_two_moderate :
  determineDecision (record 90 90 55 55) = AutoApprove.
Proof. reflexivity. Qed.

Example decide_elevated_affordability :
  determineDecision (record 60 40 60 60) = AutoDeny.
Proof. reflexivity. Qed.

Example decide_single_elevated :
  determineDecision (record 60 60 45 60) = ElevatedRisk.
Proof. reflexivity. Qed.

Example decide_one_high_three_low :
  determineDecision (record 20 90 90 90) = AutoDeny.
Proof. reflexivity. Qed.

Example decide_manual_review :
  determineDecision (record 90 60 60 60) = ManualReview.
Proof. reflexivity. Qed.

(** ** The combined score *)

Lemma calculateCombinedScore_finite (id : string) (a b c d : Q) :
  calculateCombinedScore
    {| customer_id := id; transaction_history := Num a; affordability := Num b;
       employment := Num c; behavior := Num d |}
  = Num (Spec.mean4 a b c d).
Proof. reflexivity. Qed.

Lemma combined_score_finite (id : string) (a b c d : Q) :
  Processed.combined_score
    (processCustomer
       {| customer_id := id; transaction_history := Num a; affordability := Num b;
          employment := Num c; behavior := Num d |})
  = Num (inject_Z (Qfloor (Spec.mean4 a b c d * 10 + (1 # 2))) / 10).
Proof. reflexivity. Qed.





(** ** The overall risk level *)



Lemma tenth_rounding_keeps_threshold (k T : Z) (m : Q) :
  m == inject_Z k / 4 ->
  Qle_bool (inject_Z T) (inject_Z (Qfloor (m * 10 + (1 # 2))) / 10)
  = Qle_bool (inject_Z T) m.
Proof.
  intros Hm.
  apply eq_true_iff_eq. rewrite !Qle_bool_iff.
  pose proof (Qfloor_le (m * 10 + (1 # 2))) as Hle.
  pose proof (Qlt_floor (m * 10 + (1 # 2))) as Hlt.
  remember (Qfloor (m * 10 + (1 # 2))) as n eqn:En. clear En.
  rewrite Hm in *. clear Hm m.
  assert (E : inject_Z n / 10 == inject_Z n * (1 # 10)) by field.
  assert (E4 : inject_Z k / 4 == inject_Z k * (1 # 4)) by field.
  rewrite E. rewrite E4 in *. clear E E4.
  unfold Qle, Qlt in *. simpl in *. lia.
Qed.

Lemma mean4_integers (a b c d : Z) :
  Spec.mean4 (inject_Z a) (inject_Z b) (inject_Z c) (inject_Z d)
  == inject_Z (a + b + c + d) / 4.
Proof. unfold Spec.mean4. rewrite !inject_Z_plus. reflexivity. Qed.

(** Where C4 does hold: when the four scores are integers, rounding the
    mean to one decimal never crosses a threshold. *)
Lemma risk_level_of_rounded_integers (id : string) (a b c d : Z) :
  let p :=
    processCustomer
      {| customer_id := id; transaction_history := Num (inject_Z a);
         affordability := Num (inject_Z b); employment := Num (inject_Z c);
         behavior := Num (inject_Z d) |} in
  Processed.risk_level p = getRiskLevel (Processed.combined_score p).
Proof.
  cbv zeta. rewrite combined_score_finite.
  change (Processed.risk_level _)
    with (getRiskLevel
            (Num (Spec.mean4 (inject_Z a) (inject_Z b) (inject_Z c) (inject_Z d)))).
  pose proof (mean4_integers a b c d) as Hm.
  unfold getRiskLevel, RISK_THRESHOLDS.low, RISK_THRESHOLDS.moderate,
    RISK_THRESHOLDS.elevated, JS.ge.
  change 70 with (inject_Z 70). change 50 with (inject_Z 50).
  change 35 with (inject_Z 35).
  rewrite !(tenth_rounding_keeps_threshold (a + b + c + d) _ _ Hm).
  reflexivity.
Qed.

(** ** Portfolio statistics *)

Lemma analyzeCriteria_stats (data : list Processed.t) :
  analyzeCriteria data
  = [ {| Stat.key := "transaction_history"; Stat.name := "Transaction History";
         Stat.avgScore := average (map Processed.transaction_history data) |};
      {| Stat.key := "affordability"; Stat.name := "Affordability";
         Stat.avgScore := average (map Processed.affordability data) |};
      {| Stat.key := "employment"; Stat.name := "Employment";
         Stat.avgScore := average (map Processed.employment data) |};
      {| Stat.key := "behavior"; Stat.name := "Behavior";
         Stat.avgScore := average (map Processed.behavior data) |} ].
Proof. reflexivity. Qed.












(** ** The empty batch *)

Lemma average_checked_sound (scores : list number) (x : number) :
  average_checked scores = Some x -> average scores = x.
Proof.
  unfold average_checked, average.
  destruct (strict_eq (of_nat (List.length scores)) (Num 0)); [discriminate |].
  intros H. injection H as <-. reflexivity.
Qed.

Lemma average_checked_nonempty (scores : list number) :
  scores <> [] -> average_checked scores = Some (average scores).
Proof.
  destruct scores as [|x scores]; [contradiction |]. reflexivity.
Qed.

(** C6, as stated, fails: on the empty batch [analyzeCriteria] divides
    by [scores.length], which is zero, with no test before it; the
    quotient 0 / 0 is [NaN]. *)
Lemma empty_batch_divides_by_zero :
  of_nat (List.length (map (fun d => get d "transaction_history") [])) = Num 0
  /\ average_checked (map (fun d => get d "transaction_history") []) = None
  /\ average (map (fun d => get d "transaction_history") [])
     = (Num 0 / Num 0)%js
  /\ ~ (exists x : number,
          average_checked (map (fun d => get d "transaction_history") [])
          = Some x).
Proof.
  repeat split. intros [x H]. discriminate H.
Qed.

(** C6, amended: on the empty batch nothing throws.  Each per-criterion
    mean is the unguarded quotient 0 / 0, which is [NaN]; the reduction
    over the four [NaN] means returns the last entry, Behavior; the
    decision counts are 0; and the rates are guarded by a test of the
    length: [updateInsights] returns the placeholder before any rate or
    mean is computed and the progress bars are left as they are. *)
Theorem empty_batch_sentinels :
  map Stat.avgScore (analyzeCriteria []) = [NaN; NaN; NaN; NaN]
  /\ option_map Stat.name (weakestCriterion []) = Some "Behavior"%string
  /\ option_map Stat.avgScore (weakestCriterion []) = Some NaN
  /\ map (countDecision []) all_decisions = [0; 0; 0; 0]%nat
  /\ updateInsights [] = Placeholder
  /\ progressBars [] = None.
Proof. repeat split. Qed.

(** ** The sample generator *)

Lemma Qfloor_unique (x : Q) (n : Z) :
  inject_Z n <= x -> x < inject_Z (n + 1) -> Qfloor x = n.
Proof.
  intros Hle Hlt.
  pose proof (Qfloor_le x) as Fle. pose proof (Qlt_floor x) as Flt.
  assert (H1 : inject_Z (Qfloor x) < inject_Z (n + 1)) by lra.
  assert (H2 : inject_Z n < inject_Z (Qfloor x + 1)) by lra.
  rewrite <- Zlt_Qlt in H1, H2. lia.
Qed.

Lemma Qfloor_plus_Z (x : Q) (z : Z) : Qfloor (x + inject_Z z) = (z + Qfloor x)%Z.
Proof.
  apply Qfloor_unique.
  - rewrite inject_Z_plus. pose proof (Qfloor_le x). lra.
  - replace (z + Qfloor x + 1)%Z with (z + (Qfloor x + 1))%Z by ring.
    rewrite inject_Z_plus. pose proof (Qlt_floor x). lra.
Qed.

Lemma Math_min_Z (a z : Z) :
  Math_min (Num (inject_Z a)) (Num (inject_Z z)) = Num (inject_Z (Z.min a z)).
Proof.
  unfold Math_min.
  destruct (Num (inject_Z z) < Num (inject_Z a))%js eqn:E.
  - apply lt_Num in E. rewrite <- Zlt_Qlt in E. rewrite Z.min_r by lia. reflexivity.
  - apply lt_Num_false in E. rewrite <- Zle_Qle in E. rewrite Z.min_l by lia.
    reflexivity.
Qed.

Lemma Math_max_Z (a z : Z) :
  Math_max (Num (inject_Z a)) (Num (inject_Z z)) = Num (inject_Z (Z.max a z)).
Proof.
  unfold Math_max.
  destruct (Num (inject_Z a) < Num (inject_Z z))%js eqn:E.
  - apply lt_Num in E. rewrite <- Zlt_Qlt in E. rewrite Z.max_r by lia. reflexivity.
  - apply lt_Num_false in E. rewrite <- Zle_Qle in E. rewrite Z.max_l by lia.
    reflexivity.
Qed.

Lemma clamp_Z (z : Z) :
  Math_max (Num 0) (Math_min (Num 100) (Num (inject_Z z)))
  = Num (inject_Z (Spec.clamp z)).
Proof.
  change (Num 100) with (Num (inject_Z 100)).
  change (Num 0) with (Num (inject_Z 0)).
  rewrite Math_min_Z, Math_max_Z. reflexivity.
Qed.

Lemma add_Z (a b : Z) :
  (Num (inject_Z a) + Num (inject_Z b))%js = Num (inject_Z (a + b)).
Proof. simpl. rewrite inject_Z_plus. reflexivity. Qed.

Lemma sub_Z (a b : Z) :
  (Num (inject_Z a) - Num (inject_Z b))%js = Num (inject_Z (a - b)).
Proof.
  unfold JS.sub. simpl. rewrite <- inject_Z_opp, <- inject_Z_plus. reflexivity.
Qed.

Lemma offset_Z (c : Criterion.t) :
  (variation c || Num 0)%js = Num (inject_Z (Spec.offset c)).
Proof. destruct c; reflexivity. Qed.

Lemma floor_range (r : Q) (lo hi : Z) :
  Qfloor (r * (inject_Z hi + - inject_Z lo + 1) + inject_Z lo)
  = (lo + Qfloor (r * inject_Z (hi - lo + 1)))%Z.
Proof.
  rewrite <- Qfloor_plus_Z. apply Qfloor_comp.
  unfold Z.sub. rewrite !inject_Z_plus, inject_Z_opp. reflexivity.
Qed.

Lemma base_Z (p : Profile) (r : Q) :
  Math_floor (Num r * (Range.max (baseRanges p) - Range.min (baseRanges p) + Num 1)
              + Range.min (baseRanges p))%js
  = Num (inject_Z (Spec.base_draw p r)).
Proof.
  destruct p;
    unfold Spec.baseRange, baseRanges, Range.max, Range.min, Spec.base_draw,
      Math_floor, JS.sub, JS.neg, JS.mul, JS.add;
    f_equal; f_equal.
  - apply (floor_range r 70 100).
  - apply (floor_range r 50 85).
  - apply (floor_range r 30 65).
  - apply (floor_range r 10 45).
Qed.

Lemma generateScore_clamped_twice (random : nat -> Q) (p : Profile)
  (c : Criterion.t) (k : nat) :
  generateScore random p c k
  = (Num (inject_Z (Spec.score_clamped_twice p c (random k) (random (S k)))),
     S (S k)).
Proof.
  unfold generateScore, bind, Math_random, ret.
  rewrite base_Z, offset_Z, add_Z, clamp_Z.
  change (Math_floor (Num (random (S k)) * Num 11))%js
    with (Num (inject_Z (Qfloor (random (S k) * 11)))).
  change (Num 5) with (Num (inject_Z 5)).
  rewrite sub_Z, add_Z, clamp_Z. reflexivity.
Qed.

Lemma floor_scaled_bounds (r : Q) (N : Z) :
  (0 < N)%Z -> 0 <= r < 1 -> (0 <= Qfloor (r * inject_Z N) < N)%Z.
Proof.
  intros HN [H0 H1].
  assert (HNq : 0 < inject_Z N) by (rewrite Zlt_Qlt in HN; exact HN).
  assert (Hx0 : 0 <= r * inject_Z N) by (apply Qmult_le_0_compat; lra).
  assert (Hx1 : r * inject_Z N < inject_Z N).
  { setoid_replace (inject_Z N) with (1 * inject_Z N) at 2 by ring.
    apply Qmult_lt_compat_r; assumption. }
  pose proof (Qfloor_le (r * inject_Z N)) as Fle.
  pose proof (Qlt_floor (r * inject_Z N)) as Flt.
  remember (Qfloor (r * inject_Z N)) as n eqn:En. clear En.
  assert (Hn : inject_Z 0 < inject_Z (n + 1) /\ inject_Z n < inject_Z N).
  { change (inject_Z 0) with 0. split; lra. }
  rewrite <- !Zlt_Qlt in Hn. lia.
Qed.

Lemma base_draw_bounds (p : Profile) (r : Q) :
  0 <= r < 1 ->
  (fst (Spec.baseRange p) <= Spec.base_draw p r <= snd (Spec.baseRange p))%Z.
Proof.
  intros Hr. unfold Spec.base_draw.
  destruct p; simpl Spec.baseRange; cbn [fst snd].
  - pose proof (floor_scaled_bounds r (100 - 70 + 1) eq_refl Hr). lia.
  - pose proof (floor_scaled_bounds r (85 - 50 + 1) eq_refl Hr). lia.
  - pose proof (floor_scaled_bounds r (65 - 30 + 1) eq_refl Hr). lia.
  - pose proof (floor_scaled_bounds r (45 - 10 + 1) eq_refl Hr). lia.
Qed.

Lemma noise_draw_bounds (r : Q) :
  0 <= r < 1 -> (-5 <= Spec.noise_draw r <= 5)%Z.
Proof.
  intros Hr. unfold Spec.noise_draw.
  pose proof (floor_scaled_bounds r 11 eq_refl Hr) as H.
  change (inject_Z 11) with 11 in H. lia.
Qed.

(** Every integer of the base range is drawn on an interval of draws of
    the same length, one over the size of the range. *)
Lemma base_draw_uniform (p : Profile) (r : Q) (z : Z) :
  Spec.base_draw p r = z
  <-> inject_Z (z - fst (Spec.baseRange p))
      <= r * inject_Z (snd (Spec.baseRange p) - fst (Spec.baseRange p) + 1)
      /\ r * inject_Z (snd (Spec.baseRange p) - fst (Spec.baseRange p) + 1)
         < inject_Z (z - fst (Spec.baseRange p) + 1).
Proof.
  unfold Spec.base_draw. destruct (Spec.baseRange p) as [lo hi]. cbn [fst snd].
  set (x := r * inject_Z (hi - lo + 1)).
  split.
  - intros <-. replace (lo + Qfloor x - lo)%Z with (Qfloor x) by ring.
    split; [apply Qfloor_le | apply Qlt_floor].
  - intros [Hle Hlt]. rewrite (Qfloor_unique x (z - lo) Hle Hlt). ring.
Qed.




Lemma clamp_in_0_100 (z : Z) : in_0_100 (Num (inject_Z (Spec.clamp z))) = true.
Proof.
  unfold in_0_100. apply andb_true_iff. split.
  - apply (ge_Num (inject_Z (Spec.clamp z)) (inject_Z 0)).
    rewrite <- Zle_Qle. unfold Spec.clamp. lia.
  - apply (ge_Num (inject_Z 100) (inject_Z (Spec.clamp z))).
    rewrite <- Zle_Qle. unfold Spec.clamp. lia.
Qed.

Lemma generateScore_in_0_100 (random : nat -> Q) (p : Profile) (c : Criterion.t)
  (k : nat) :
  in_0_100 (fst (generateScore random p c k)) = true
  /\ snd (generateScore random p c k) = S (S k).
Proof.
  rewrite generateScore_clamped_twice. unfold Spec.score_clamped_twice. split; [apply clamp_in_0_100 | reflexivity].
Qed.

Lemma generateCustomer_spec (random : nat -> Q) (i k : nat) :
  customer_id (fst (generateCustomer random i k)) = customerId i
  /\ scores_in_0_100 (fst (generateCustomer random i k)) = true
  /\ snd (generateCustomer random i k) = (k + 9)%nat.
Proof.
  unfold generateCustomer, bind.
  destruct (getRandomProfile random k) as [p k1] eqn:Ep.
  assert (Hk1 : k1 = S k) by (unfold getRandomProfile, bind, Math_random, ret in Ep; congruence).
  rewrite !generateScore_clamped_twice. unfold ret. cbn [fst snd customer_id].
  split; [reflexivity |]. split.
  - unfold scores_in_0_100.
    cbn [transaction_history affordability employment behavior].
    unfold Spec.score_clamped_twice. rewrite !clamp_in_0_100. reflexivity.
  - lia.
Qed.

Lemma generateLoop_spec (random : nat -> Q) (remaining : nat) :
  forall (i : nat) (data : list CustomerRecord) (k : nat),
  exists fresh : list CustomerRecord,
    fst (generateLoop random remaining i data k) = data ++ fresh
    /\ List.length fresh = remaining
    /\ map customer_id fresh = map customerId (seq i remaining)
    /\ forallb scores_in_0_100 fresh = true
    /\ snd (generateLoop random remaining i data k) = (k + 9 * remaining)%nat.
Proof.
  induction remaining as [|n IH]; intros i data k.
  - exists []. simpl. rewrite app_nil_r. repeat split. lia.
  - pose proof (generateCustomer_spec random i k) as (Hid & Hin & Hk).
    assert (Estep : generateLoop random (S n) i data k
                    = generateLoop random n (S i)
                        (data ++ [fst (generateCustomer random i k)])
                        (snd (generateCustomer random i k))).
    { change (generateLoop random (S n) i data k)
        with (bind (generateCustomer random i)
                (fun customer =>
                   generateLoop random n (S i) (data ++ [customer])) k).
      unfold bind. destruct (generateCustomer random i k). reflexivity. }
    rewrite Estep.
    destruct (IH (S i) (data ++ [fst (generateCustomer random i k)])
                 (snd (generateCustomer random i k)))
      as (fresh & E & Hlen & Hids & Hall & Hk').
    exists (fst (generateCustomer random i k) :: fresh).
    rewrite E, <- app_assoc, Hk', Hk. cbn [List.length map forallb seq app].
    rewrite Hlen, Hid, Hids, Hin, Hall.
    repeat split. lia.
Qed.

Lemma uint_of_string_zeros (n : nat) (d : Decimal.uint) :
  NilEmpty.uint_of_string (repeat_char "0" n ++ NilEmpty.string_of_uint d)
  = Some (Nat.iter n Decimal.D0 d).
Proof.
  induction n as [|n IH]; simpl.
  - apply NilEmpty.usu.
  - rewrite IH. reflexivity.
Qed.

Lemma of_uint_zeros (n : nat) (d : Decimal.uint) :
  Nat.of_uint (Nat.iter n Decimal.D0 d) = Nat.of_uint d.
Proof.
  induction n as [|n IH]; simpl; [reflexivity |].
  rewrite <- IH. reflexivity.
Qed.

Lemma customerNumber_customerId (i : nat) : customerNumber (customerId i) = Some i.
Proof.
  unfold customerId, padStart, String_of_nat. simpl.
  rewrite uint_of_string_zeros. simpl.
  rewrite of_uint_zeros, Unsigned.of_to. reflexivity.
Qed.

Lemma customerId_NoDup (l : list nat) : NoDup l -> NoDup (map customerId l).
Proof.
  apply Injective_map_NoDup. intros x y E.
  apply (f_equal customerNumber) in E.
  rewrite !customerNumber_customerId in E. congruence.
Qed.

(** C7: for every count and every sequence of draws the generator
    returns exactly [count] records, every criterion field of every
    record lies in [0, 100], and the identifiers are, in order, the
    zero-padded sequence CUST-0001, CUST-0002, ..., without repetition. *)
Theorem generateSampleData_spec (random : nat -> Q) (count k : nat) :
  List.length (fst (generateSampleData random count k)) = count
  /\ forallb scores_in_0_100 (fst (generateSampleData random count k)) = true
  /\ map customer_id (fst (generateSampleData random count k))
     = map customerId (seq 1 count)
  /\ NoDup (map customer_id (fst (generateSampleData random count k)))
  /\ map customerNumber (map customer_id (fst (generateSampleData random count k)))
     = map Some (seq 1 count)
  /\ customerId 1 = "CUST-0001"%string
  /\ customerId 2 = "CUST-0002"%string
  /\ customerId 137 = "CUST-0137"%string.
Proof.
  unfold generateSampleData.
  destruct (generateLoop_spec random count 1 [] k)
    as (fresh & E & Hlen & Hids & Hall & _).
  rewrite E. cbn [app].
  split; [exact Hlen | split; [exact Hall | split; [exact Hids |]]].
  rewrite Hids.
  split; [apply customerId_NoDup, seq_NoDup |].
  split; [| repeat split].
  rewrite map_map. apply map_ext. apply customerNumber_customerId.
Qed.

(** ** Data processing *)

Lemma read_app (h extra : Store.t) (r : Store.ref) (o : Store.object) :
  Store.read h r = Some o -> Store.read (h ++ extra) r = Some o.
Proof.
  unfold Store.read. intros H.
  rewrite nth_error_app1; [exact H |].
  apply nth_error_Some. congruence.
Qed.

Lemma processData_store_steps (rawData : list Store.ref) :
  forall (customers : list CustomerRecord) (h extra : Store.t)
         (out : list Store.ref),
  map (Store.read h) rawData = map (fun c => Some (Store.Raw c)) customers ->
  fold_left Store.processStep rawData (Some (h ++ extra, out))
  = Some (h ++ extra ++ map Store.Done (processData customers),
          out ++ seq (List.length (h ++ extra)) (List.length customers)).
Proof.
  induction rawData as [|r rawData IH]; intros customers h extra out Hread.
  - destruct customers; [| discriminate]. simpl.
    rewrite !app_nil_r. reflexivity.
  - destruct customers as [|c customers]; [discriminate |].
    simpl in Hread. injection Hread as Hr Hrest.
    assert (Estep : Store.processStep (Some (h ++ extra, out)) r
                    = Some (h ++ (extra ++ [Store.Done (processCustomer c)]),
                            out ++ [List.length (h ++ extra)])).
    { unfold Store.processStep. rewrite (read_app h extra r _ Hr).
      unfold Store.alloc. rewrite <- app_assoc. reflexivity. }
    cbn [fold_left]. rewrite Estep.
    rewrite (IH customers h (extra ++ [Store.Done (processCustomer c)])
               (out ++ [List.length (h ++ extra)]) Hrest).
    f_equal. f_equal.
    + simpl. rewrite <- !app_assoc. reflexivity.
    + rewrite <- app_assoc. f_equal. simpl. f_equal.
      rewrite !length_app. simpl. f_equal. lia.
Qed.

Lemma read_fresh (l : list Store.object) :
  forall h : Store.t,
  map (Store.read (h ++ l)) (seq (List.length h) (List.length l)) = map Some l.
Proof.
  unfold Store.read.
  induction l as [|x l IH]; intros h; [reflexivity |].
  cbn [List.length seq map]. f_equal.
  - rewrite nth_error_app2 by lia. rewrite Nat.sub_diag. reflexivity.
  - specialize (IH (h ++ [x])).
    rewrite <- app_assoc, length_app in IH. cbn [List.length app] in IH.
    rewrite Nat.add_1_r in IH. exact IH.
Qed.

(** C9: [processData] returns as many records as it is given; the i-th
    output record has the identifier and the four criterion values of
    the i-th input record, next to the three derived fields; and the
    input is not mutated: over an object store the call only allocates
    the output objects, every object that existed before reads the same
    afterwards, and the input array still refers to the same records. *)
Theorem processData_frame (h : Store.t) (rawData : list Store.ref)
  (customers : list CustomerRecord) :
  map (Store.read h) rawData = map (fun c => Some (Store.Raw c)) customers ->
  List.length (processData customers) = List.length customers
  /\ (forall i c, nth_error customers i = Some c ->
      exists p, nth_error (processData customers) i = Some p
        /\ Processed.customer_id p = customer_id c
        /\ Processed.transaction_history p = transaction_history c
        /\ Processed.affordability p = affordability c
        /\ Processed.employment p = employment c
        /\ Processed.behavior p = behavior c)
  /\ exists (h' : Store.t) (out : list Store.ref),
       Store.processData h rawData = Some (h', out)
       /\ h' = h ++ map Store.Done (processData customers)
       /\ map (Store.read h') out
          = map (fun p => Some (Store.Done p)) (processData customers)
       /\ (forall r o, Store.read h r = Some o -> Store.read h' r = Some o)
       /\ map (Store.read h') rawData
          = map (fun c => Some (Store.Raw c)) customers.
Proof.
  intros Hread.
  split; [apply length_map |].
  split.
  - intros i c Hc. exists (processCustomer c).
    split; [apply map_nth_error; exact Hc | repeat split].
  - exists (h ++ map Store.Done (processData customers)),
      (seq (List.length h) (List.length customers)).
    split.
    + unfold Store.processData.
      pose proof (processData_store_steps rawData customers h [] [] Hread) as E.
      rewrite !app_nil_r in E. exact E.
    + split; [reflexivity |]. split.
      * replace (List.length customers)
          with (List.length (map Store.Done (processData customers)))
          by (unfold processData; rewrite !length_map; reflexivity).
        rewrite read_fresh, map_map. reflexivity.
      * split; [intros r o; apply read_app |].
        rewrite <- Hread. apply map_ext_in. intros r Hin.
        destruct (Store.read h r) as [o|] eqn:Er.
        -- apply read_app. exact Er.
        -- exfalso.
           assert (Hin' : In (Store.read h r) (map (Store.read h) rawData))
             by (apply in_map; exact Hin).
           rewrite Hread, Er in Hin'. apply in_map_iff in Hin'.
           destruct Hin' as (c & Hc & _). discriminate.
Qed.

Lemma processData_frame_witness :
  map (Store.read one_record_store) [0%nat]
  = map (fun c => Some (Store.Raw c)) [record 50 50 50 50]
  /\ List.length (processData [record 50 50 50 50]) = 1%nat.
Proof.
  assert (H : map (Store.read one_record_store) [0%nat]
              = map (fun c => Some (Store.Raw c)) [record 50 50 50 50])
    by reflexivity.
  split; [exact H |].
  exact (proj1 (processData_frame one_record_store [0%nat]
                  [record 50 50 50 50] H)).
Defined.

(** * Further properties *)

(** ** Further properties of the classifiers and of the decision *)

Lemma determineDecision_decide (customer : CustomerRecord) :
  determineDecision customer = Spec.decide (Spec.tiers_of customer).
Proof.
  unfold determineDecision, Spec.decide, Spec.tiers_of.
  destruct (getCriteriaRisk (transaction_history customer));
  destruct (getCriteriaRisk (affordability customer));
  destruct (getCriteriaRisk (employment customer));
  destruct (getCriteriaRisk (behavior customer)); reflexivity.
Qed.

Lemma classify_bounds (q : Q) :
  (getCriteriaRisk (Num q) = low /\ 70 <= q)
  \/ (getCriteriaRisk (Num q) = moderate /\ 50 <= q < 70)
  \/ (getCriteriaRisk (Num q) = elevated /\ 35 <= q < 50)
  \/ (getCriteriaRisk (Num q) = high /\ q < 35).
Proof.
  unfold getCriteriaRisk, RISK_THRESHOLDS.low, RISK_THRESHOLDS.moderate,
    RISK_THRESHOLDS.elevated, JS.ge.
  destruct (Qle_bool 70 q) eqn:E70; [left; qbool; auto |].
  destruct (Qle_bool 50 q) eqn:E50; [right; left; qbool; split; [reflexivity | lra] |].
  destruct (Qle_bool 35 q) eqn:E35; qbool.
  - right; right; left. split; [reflexivity | lra].
  - right; right; right. split; [reflexivity | lra].
Qed.

(** The three comparisons of a finite score, read off its tier. *)
Lemma tier_bits (q : Q) :
  Qle_bool 35 q = (1 <=? tier_rank (getCriteriaRisk (Num q)))%nat
  /\ Qle_bool 50 q = (2 <=? tier_rank (getCriteriaRisk (Num q)))%nat
  /\ Qle_bool 70 q = (3 <=? tier_rank (getCriteriaRisk (Num q)))%nat.
Proof.
  destruct (classify_bounds q) as [[-> H] | [[-> H] | [[-> H] | [-> H]]]];
    simpl; repeat split;
    first [ apply Qle_bool_iff; lra
          | apply not_true_iff_false; rewrite Qle_bool_iff; lra ].
Qed.

Lemma getCriteriaRisk_monotone_finite (q q' : Q) :
  q <= q' ->
  (tier_rank (getCriteriaRisk (Num q)) <= tier_rank (getCriteriaRisk (Num q')))%nat.
Proof.
  intros Hle.
  destruct (classify_bounds q) as [H | [H | [H | H]]];
  destruct (classify_bounds q') as [H' | [H' | [H' | H']]];
  destruct H as [-> Hq]; destruct H' as [-> Hq']; simpl; try lia; exfalso; lra.
Qed.

Lemma classifier_rank_le (s s' : number) :
  (s' >= s)%js = true ->
  (tier_rank (getCriteriaRisk s) <= tier_rank (getCriteriaRisk s'))%nat.
Proof.
  intros Hge.
  destruct s as [q | | |], s' as [q' | | |]; simpl in Hge; try discriminate;
    try (simpl; lia).
  - apply getCriteriaRisk_monotone_finite. apply Qle_bool_iff. exact Hge.
  - change (getCriteriaRisk Infinity) with low. simpl.
    destruct (getCriteriaRisk (Num q)); simpl; lia.
Qed.

(** X1: a score that compares as at least another one (so neither is
    [NaN]) never gets a worse tier, from either classifier. *)
Theorem classifier_monotone (s s' : number) :
  (s' >= s)%js = true ->
  (tier_rank (getCriteriaRisk s) <= tier_rank (getCriteriaRisk s'))%nat
  /\ getRiskLevel s = risk_label (getCriteriaRisk s)
  /\ getRiskLevel s' = risk_label (getCriteriaRisk s').
Proof.
  intros Hge. split; [| split; apply getRiskLevel_label].
  apply classifier_rank_le. exact Hge.
Qed.

Lemma classifier_monotone_witness :
  (Num 70 >= Num (69999 # 1000))%js = true
  /\ (tier_rank (getCriteriaRisk (Num (69999 # 1000)))
      <= tier_rank (getCriteriaRisk (Num 70)))%nat.
Proof.
  assert (H : (Num 70 >= Num (69999 # 1000))%js = true) by reflexivity.
  split; [exact H |].
  exact (proj1 (classifier_monotone (Num (69999 # 1000)) (Num 70) H)).
Defined.

(** X2: the decision in terms of the scores.  A record with finite
    scores is auto-approved exactly when all four scores are at least
    50 and at least two are at least 70; it goes to manual review
    exactly when all four are at least 50 and at most one is at least
    70; it is marked elevated risk exactly when no score is below 35,
    exactly one lies in [35, 50) and it is not the case that this one
    is affordability while the other three lie in [50, 70); and it is
    denied otherwise. *)
Theorem decision_by_scores (a b c d : Q) :
  let scores := [a; b; c; d] in
  let lone_affordability :=
    Qle_bool 35 b && negb (Qle_bool 50 b) && (count_in 50 70 scores =? 3)%nat in
  (determineDecision (record a b c d) = AutoApprove
   <-> count_ge 50 scores = 4%nat /\ (2 <= count_ge 70 scores)%nat)
  /\ (determineDecision (record a b c d) = ManualReview
      <-> count_ge 50 scores = 4%nat /\ (count_ge 70 scores <= 1)%nat)
  /\ (determineDecision (record a b c d) = ElevatedRisk
      <-> count_ge 35 scores = 4%nat /\ count_in 35 50 scores = 1%nat
          /\ lone_affordability = false)
  /\ (determineDecision (record a b c d) = AutoDeny
      <-> (count_ge 35 scores < 4)%nat \/ (2 <= count_in 35 50 scores)%nat
          \/ lone_affordability = true).
Proof.
  cbv zeta. rewrite determineDecision_decide.
  unfold Spec.tiers_of, record, count_ge, count_in.
  cbn [transaction_history affordability employment behavior filter].
  destruct (tier_bits a) as (A1 & A2 & A3).
  destruct (tier_bits b) as (B1 & B2 & B3).
  destruct (tier_bits c) as (C1 & C2 & C3).
  destruct (tier_bits d) as (D1 & D2 & D3).
  rewrite A1, A2, A3, B1, B2, B3, C1, C2, C3, D1, D2, D3.
  destruct (getCriteriaRisk (Num a)), (getCriteriaRisk (Num b)),
    (getCriteriaRisk (Num c)), (getCriteriaRisk (Num d));
    vm_compute; intuition (try discriminate; try lia).
Qed.

(** X3: the test [riskCounts.low === 4] never decides anything: a
    record with four Low tiers also passes the next test, so the script
    without that branch returns the same decision on every record. *)
Theorem all_low_rule_redundant (customer : CustomerRecord) :
  determineDecision_without_all_low customer = determineDecision customer.
Proof.
  unfold determineDecision_without_all_low, determineDecision, Spec.tiers_of.
  destruct (getCriteriaRisk (transaction_history customer));
  destruct (getCriteriaRisk (affordability customer));
  destruct (getCriteriaRisk (employment customer));
  destruct (getCriteriaRisk (behavior customer)); reflexivity.
Qed.

Lemma in_all_tiers (r : CriteriaRisk) : In r all_tiers.
Proof. destruct r; simpl; tauto. Qed.

Lemma in_all_tier_tuples (t : Risks.t) : In t all_tier_tuples.
Proof.
  destruct t as [a b c d]. unfold all_tier_tuples.
  apply in_flat_map. exists a. split; [apply in_all_tiers |].
  apply in_flat_map. exists b. split; [apply in_all_tiers |].
  apply in_flat_map. exists c. split; [apply in_all_tiers |].
  apply in_map. apply in_all_tiers.
Qed.

Lemma decide_monotone (t u : Risks.t) :
  tiers_le t u = true ->
  (decision_rank (Spec.decide t) <= decision_rank (Spec.decide u))%nat.
Proof.
  intros Hle.
  assert (Hall : decide_monotone_check = true) by (vm_compute; reflexivity).
  unfold decide_monotone_check in Hall.
  rewrite forallb_forall in Hall.
  specialize (Hall t (in_all_tier_tuples t)).
  rewrite forallb_forall in Hall.
  specialize (Hall u (in_all_tier_tuples u)).
  rewrite Hle in Hall. simpl in Hall.
  apply Nat.leb_le. exact Hall.
Qed.

(** X4: raising scores never worsens the decision: if each score of a
    record compares as at most the corresponding score of another
    record, the decision on the first is at most the decision on the
    second, in the order Auto Deny, Elevated Risk, Manual Review, Auto
    Approve. *)
Theorem determineDecision_monotone (c c' : CustomerRecord) :
  (transaction_history c' >= transaction_history c)%js = true ->
  (affordability c' >= affordability c)%js = true ->
  (employment c' >= employment c)%js = true ->
  (behavior c' >= behavior c)%js = true ->
  (decision_rank (determineDecision c) <= decision_rank (determineDecision c'))%nat.
Proof.
  intros H1 H2 H3 H4.
  rewrite !determineDecision_decide.
  apply decide_monotone. unfold tiers_le, Spec.tiers_of.
  cbn [Risks.transaction Risks.affordability Risks.employment Risks.behavior].
  rewrite !andb_true_iff, !Nat.leb_le.
  repeat split.
  - apply (classifier_rank_le _ _ H1).
  - apply (classifier_rank_le _ _ H2).
  - apply (classifier_rank_le _ _ H3).
  - apply (classifier_rank_le _ _ H4).
Qed.

Lemma determineDecision_monotone_witness :
  (decision_rank (determineDecision (record 60 40 60 60))
   <= decision_rank (determineDecision (record 60 40 75 60)))%nat.
Proof.
  apply determineDecision_monotone; reflexivity.
Defined.

(** ** Further properties of [processData] *)

Lemma in_0_100_finite (x : number) :
  in_0_100 x = true -> exists q : Q, x = Num q /\ 0 <= q <= 100.
Proof.
  unfold in_0_100. intros H. apply andb_true_iff in H. destruct H as [H0 H1].
  destruct x as [q | | |]; simpl in H0, H1; try discriminate.
  exists q. qbool. auto.
Qed.

(** X5: when the four scores of a record lie in [0, 100], so does the
    stored combined score, and it is a whole number of tenths. *)
Theorem combined_score_in_range (customer : CustomerRecord) :
  scores_in_0_100 customer = true ->
  in_0_100 (Processed.combined_score (processCustomer customer)) = true
  /\ exists n : Z,
       (0 <= n <= 1000)%Z
       /\ Processed.combined_score (processCustomer customer)
          = Num (inject_Z n / 10).
Proof.
  unfold scores_in_0_100. rewrite !andb_true_iff.
  intros [[[Ha Hb] Hc] Hd].
  destruct customer as [id a b c d]. cbn [transaction_history affordability
    employment behavior] in *.
  destruct (in_0_100_finite a Ha) as (qa & -> & Hqa).
  destruct (in_0_100_finite b Hb) as (qb & -> & Hqb).
  destruct (in_0_100_finite c Hc) as (qc & -> & Hqc).
  destruct (in_0_100_finite d Hd) as (qd & -> & Hqd).
  rewrite combined_score_finite.
  assert (Hm : 0 <= Spec.mean4 qa qb qc qd <= 100).
  { unfold Spec.mean4.
    assert (E : (qa + qb + qc + qd) / 4 == (qa + qb + qc + qd) * (1 # 4)) by field.
    rewrite E. lra. }
  set (m := Spec.mean4 qa qb qc qd) in *.
  pose proof (Qfloor_le (m * 10 + (1 # 2))) as Fle.
  pose proof (Qlt_floor (m * 10 + (1 # 2))) as Flt.
  remember (Qfloor (m * 10 + (1 # 2))) as n eqn:En. clear En.
  assert (Hn : (0 <= n <= 1000)%Z).
  { assert (H1 : inject_Z (-1) < inject_Z n /\ inject_Z n < inject_Z 1001).
    { rewrite inject_Z_plus in Flt. change (inject_Z 1) with 1 in Flt.
      change (inject_Z (-1)) with (-1). change (inject_Z 1001) with 1001.
      split; lra. }
    rewrite <- !Zlt_Qlt in H1. lia. }
  split; [| exists n; split; [exact Hn | reflexivity]].
  assert (Hq : inject_Z 0 <= inject_Z n /\ inject_Z n <= inject_Z 1000)
    by (rewrite <- !Zle_Qle; lia).
  change (inject_Z 0) with 0 in Hq. change (inject_Z 1000) with 1000 in Hq.
  assert (E : inject_Z n / 10 == inject_Z n * (1 # 10)) by field.
  unfold in_0_100. apply andb_true_iff. split; apply ge_Num; rewrite E; lra.
Qed.

Lemma combined_score_in_range_witness :
  scores_in_0_100 (record 60 40 75 60) = true
  /\ in_0_100 (Processed.combined_score (processCustomer (record 60 40 75 60)))
     = true.
Proof.
  assert (H : scores_in_0_100 (record 60 40 75 60) = true) by reflexivity.
  split; [exact H |].
  exact (proj1 (combined_score_in_range (record 60 40 75 60) H)).
Defined.

Lemma ge_threshold_cases (x : number) (t : Q) :
  (x >= Num t)%js = true -> (exists q : Q, x = Num q /\ t <= q) \/ x = Infinity.
Proof.
  destruct x as [q | | |]; simpl; intros H; try discriminate.
  - left. exists q. qbool. auto.
  - right. reflexivity.
Qed.

Lemma not_high_ge_35 (x : number) :
  getCriteriaRisk x <> high -> (x >= Num 35)%js = true.
Proof.
  unfold getCriteriaRisk, RISK_THRESHOLDS.low, RISK_THRESHOLDS.moderate,
    RISK_THRESHOLDS.elevated.
  destruct x as [q | | |]; simpl; try reflexivity; try congruence.
  destruct (Qle_bool 70 q) eqn:E70; destruct (Qle_bool 50 q) eqn:E50;
  destruct (Qle_bool 35 q) eqn:E35; try congruence; intros _; qbool;
  exfalso; lra.
Qed.

Lemma rank_ge_50 (x : number) :
  (2 <= tier_rank (getCriteriaRisk x))%nat -> (x >= Num 50)%js = true.
Proof.
  unfold getCriteriaRisk, RISK_THRESHOLDS.low, RISK_THRESHOLDS.moderate,
    RISK_THRESHOLDS.elevated.
  destruct x as [q | | |]; simpl; try reflexivity; try lia.
  destruct (Qle_bool 70 q) eqn:E70; destruct (Qle_bool 50 q) eqn:E50;
  destruct (Qle_bool 35 q) eqn:E35; simpl; try lia; intros _; qbool;
  exfalso; lra.
Qed.

(** The mean of four numbers that all compare as at least [t]. *)
Lemma mean_ge_threshold (id : string) (a b c d : number) (t : Q) :
  (a >= Num t)%js = true -> (b >= Num t)%js = true ->
  (c >= Num t)%js = true -> (d >= Num t)%js = true ->
  (calculateCombinedScore
     {| customer_id := id; transaction_history := a; affordability := b;
        employment := c; behavior := d |} >= Num t)%js = true.
Proof.
  intros Ha Hb Hc Hd.
  destruct (ge_threshold_cases a t Ha) as [(qa & -> & Hqa) | ->];
  destruct (ge_threshold_cases b t Hb) as [(qb & -> & Hqb) | ->];
  destruct (ge_threshold_cases c t Hc) as [(qc & -> & Hqc) | ->];
  destruct (ge_threshold_cases d t Hd) as [(qd & -> & Hqd) | ->];
  try reflexivity.
  rewrite calculateCombinedScore_finite. apply ge_Num. unfold Spec.mean4.
  assert (E : (qa + qb + qc + qd) / 4 == (qa + qb + qc + qd) * (1 # 4)) by field.
  rewrite E. lra.
Qed.

Lemma high_tier_denied (t : Risks.t) :
  In high (Risks.values t) -> Spec.decide t = AutoDeny.
Proof.
  destruct t as [a b c d]. unfold Risks.values. simpl.
  intros [H | [H | [H | [H | []]]]]; subst;
    repeat match goal with x : CriteriaRisk |- _ => destruct x end; reflexivity.
Qed.

Lemma approved_or_reviewed_tiers (t : Risks.t) :
  Spec.decide t = AutoApprove \/ Spec.decide t = ManualReview ->
  Forall (fun r => (2 <= tier_rank r)%nat) (Risks.values t).
Proof.
  destruct t as [a b c d]. unfold Risks.values. simpl.
  destruct a, b, c, d; vm_compute; intros [H | H]; try discriminate;
    repeat constructor.
Qed.

(** X6: a record whose overall risk level is High Risk is always
    denied: a mean below 35 (or an undefined one) needs a criterion in
    the High tier. *)
Theorem high_risk_level_denied (customer : CustomerRecord) :
  Processed.risk_level (processCustomer customer) = "High Risk"%string ->
  Processed.decision (processCustomer customer) = AutoDeny.
Proof.
  intros Hrisk.
  change (Processed.decision (processCustomer customer))
    with (determineDecision customer).
  change (Processed.risk_level (processCustomer customer))
    with (getRiskLevel (calculateCombinedScore customer)) in Hrisk.
  rewrite determineDecision_decide. apply high_tier_denied.
  destruct customer as [id a b c d]. unfold Spec.tiers_of, Risks.values.
  cbn [Risks.transaction Risks.affordability Risks.employment Risks.behavior
       transaction_history affordability employment behavior].
  destruct (getCriteriaRisk a) eqn:Ea; try (simpl; tauto);
  destruct (getCriteriaRisk b) eqn:Eb; try (simpl; tauto);
  destruct (getCriteriaRisk c) eqn:Ec; try (simpl; tauto);
  destruct (getCriteriaRisk d) eqn:Ed; try (simpl; tauto);
  exfalso;
  assert (Hm : (calculateCombinedScore
                  {| customer_id := id; transaction_history := a;
                     affordability := b; employment := c; behavior := d |}
                >= Num 35)%js = true)
    by (apply mean_ge_threshold; apply not_high_ge_35; congruence);
  unfold getRiskLevel, RISK_THRESHOLDS.low, RISK_THRESHOLDS.moderate,
    RISK_THRESHOLDS.elevated in Hrisk;
  rewrite Hm in Hrisk;
  repeat match type of Hrisk with
  | (if ?x then _ else _) = _ => destruct x
  end; discriminate.
Qed.

Lemma high_risk_level_denied_witness :
  Processed.risk_level (processCustomer (record 20 30 40 45)) = "High Risk"%string
  /\ Processed.decision (processCustomer (record 20 30 40 45)) = AutoDeny.
Proof.
  assert (H : Processed.risk_level (processCustomer (record 20 30 40 45))
              = "High Risk"%string) by reflexivity.
  split; [exact H |].
  exact (high_risk_level_denied (record 20 30 40 45) H).
Defined.

(** X7: a record that is auto-approved or sent to manual review has the
    overall risk level Low Risk or Moderate Risk: all four scores are
    at least 50, and so is their mean. *)
Theorem approved_risk_level (customer : CustomerRecord) :
  Processed.decision (processCustomer customer) = AutoApprove
  \/ Processed.decision (processCustomer customer) = ManualReview ->
  Processed.risk_level (processCustomer customer) = "Low Risk"%string
  \/ Processed.risk_level (processCustomer customer) = "Moderate Risk"%string.
Proof.
  change (Processed.decision (processCustomer customer))
    with (determineDecision customer).
  change (Processed.risk_level (processCustomer customer))
    with (getRiskLevel (calculateCombinedScore customer)).
  rewrite determineDecision_decide. intros Hdec.
  pose proof (approved_or_reviewed_tiers _ Hdec) as Hall.
  destruct customer as [id a b c d]. unfold Spec.tiers_of, Risks.values in Hall.
  cbn [Risks.transaction Risks.affordability Risks.employment Risks.behavior
       transaction_history affordability employment behavior] in Hall.
  inversion Hall as [| ? ? Ha Hall1]; subst.
  inversion Hall1 as [| ? ? Hb Hall2]; subst.
  inversion Hall2 as [| ? ? Hc Hall3]; subst.
  inversion Hall3 as [| ? ? Hd _]; subst.
  assert (Hm : (calculateCombinedScore
                  {| customer_id := id; transaction_history := a;
                     affordability := b; employment := c; behavior := d |}
                >= Num 50)%js = true)
    by (apply mean_ge_threshold; apply rank_ge_50; assumption).
  unfold getRiskLevel, RISK_THRESHOLDS.low, RISK_THRESHOLDS.moderate.
  rewrite Hm.
  match goal with |- context [if ?x then _ else _] => destruct x end; auto.
Qed.

Lemma approved_risk_level_witness :
  Processed.decision (processCustomer (record 90 90 55 55)) = AutoApprove
  /\ (Processed.risk_level (processCustomer (record 90 90 55 55))
      = "Low Risk"%string
      \/ Processed.risk_level (processCustomer (record 90 90 55 55))
         = "Moderate Risk"%string).
Proof.
  assert (H : Processed.decision (processCustomer (record 90 90 55 55))
              = AutoApprove) by reflexivity.
  split; [exact H |].
  exact (approved_risk_level (record 90 90 55 55) (or_introl H)).
Defined.

(** ** Further properties of the generator *)



Lemma getRandomProfile_draw (random : nat -> Q) (k : nat) :
  getRandomProfile random k
  = (if Qltb (random k) (30 # 100) then excellent
     else if Qltb (random k) (70 # 100) then good
     else if Qltb (random k) (90 # 100) then fair
     else poor, S k).
Proof. reflexivity. Qed.

Lemma generateCustomer_scores (random : nat -> Q) (i k : nat) :
  let p := fst (getRandomProfile random k) in
  let score (c : Criterion.t) (j : nat) :=
    Num (inject_Z (Spec.score_clamped_twice p c (random j) (random (S j)))) in
  fst (generateCustomer random i k)
  = {| customer_id := customerId i;
       transaction_history := score Criterion.transaction (k + 1)%nat;
       affordability := score Criterion.affordability (k + 3)%nat;
       employment := score Criterion.employment (k + 5)%nat;
       behavior := score Criterion.behavior (k + 7)%nat |}.
Proof.
  cbv zeta. unfold generateCustomer, bind.
  rewrite getRandomProfile_draw. cbn [fst].
  rewrite !generateScore_clamped_twice. unfold ret. cbn [fst].
  replace (k + 1)%nat with (S k) by lia.
  replace (k + 3)%nat with (S (S (S k))) by lia.
  replace (k + 5)%nat with (S (S (S (S (S k))))) by lia.
  replace (k + 7)%nat with (S (S (S (S (S (S (S k))))))) by lia.
  reflexivity.
Qed.

Lemma integer_tier_ge_50 (z : Z) :
  (50 <= z)%Z -> (2 <= tier_rank (getCriteriaRisk (Num (inject_Z z))))%nat.
Proof.
  intros Hz. rewrite Zle_Qle in Hz. change (inject_Z 50) with 50 in Hz.
  destruct (classify_bounds (inject_Z z)) as [[-> H] | [[-> H] | [[-> H] | [-> H]]]];
    simpl; try lia; exfalso; lra.
Qed.

Lemma integer_tier_lt_50 (z : Z) :
  (z < 50)%Z -> (tier_rank (getCriteriaRisk (Num (inject_Z z))) <= 1)%nat.
Proof.
  intros Hz. rewrite Zlt_Qlt in Hz. change (inject_Z 50) with 50 in Hz.
  destruct (classify_bounds (inject_Z z)) as [[-> H] | [[-> H] | [[-> H] | [-> H]]]];
    simpl; try lia; exfalso; lra.
Qed.

Lemma tiers_all_moderate_or_low (t : Risks.t) :
  Forall (fun r => (2 <= tier_rank r)%nat) (Risks.values t) ->
  Spec.decide t = AutoApprove \/ Spec.decide t = ManualReview.
Proof.
  destruct t as [a b c d]. unfold Risks.values. simpl. intros H.
  inversion H as [| ? ? Ha H1]; subst. inversion H1 as [| ? ? Hb H2]; subst.
  inversion H2 as [| ? ? Hc H3]; subst. inversion H3 as [| ? ? Hd _]; subst.
  destruct a, b, c, d; simpl in Ha, Hb, Hc, Hd; try lia; vm_compute; auto.
Qed.

Lemma affordability_below_moderate (t : Risks.t) :
  (tier_rank (Risks.affordability t) <= 1)%nat ->
  Spec.decide t = AutoDeny \/ Spec.decide t = ElevatedRisk.
Proof.
  destruct t as [a b c d]. simpl. intros Hb.
  destruct a, b, c, d; simpl in Hb; try lia; vm_compute; auto.
Qed.

Lemma score_bounds (random : nat -> Q) (p : Profile) (c : Criterion.t) (j : nat) :
  (forall n, 0 <= random n < 1) ->
  (Z.max 0 (fst (Spec.baseRange p) + Spec.offset c - 5)
   <= Spec.score_clamped_twice p c (random j) (random (S j))
   <= Z.min 100 (snd (Spec.baseRange p) + Spec.offset c + 5))%Z.
Proof.
  intros Hr.
  pose proof (base_draw_bounds p (random j) (Hr j)) as Hb.
  pose proof (noise_draw_bounds (random (S j)) (Hr (S j))) as Hn.
  unfold Spec.score_clamped_twice, Spec.clamp.
  remember (Spec.base_draw p (random j)) as b eqn:Eb. clear Eb.
  remember (Spec.noise_draw (random (S j))) as n eqn:En. clear En.
  destruct p, c; simpl in Hb |- *; lia.
Qed.

(** X9: a customer generated from the profile excellent has no score
    below 60, so the decision on it is Auto Approve or Manual Review,
    never Auto Deny or Elevated Risk.  The profile is excellent when
    the first draw is below the binary64 value of the literal [0.30],
    which is the test that the script makes. *)
Theorem excellent_customer_not_denied (random : nat -> Q) (i k : nat) :
  (forall n, 0 <= random n < 1) -> random k < double_0_30 ->
  determineDecision (fst (generateCustomer random i k)) = AutoApprove
  \/ determineDecision (fst (generateCustomer random i k)) = ManualReview.
Proof.
  intros Hr Hk.
  rewrite determineDecision_decide. apply tiers_all_moderate_or_low.
  pose proof (generateCustomer_scores random i k) as E. cbv zeta in E.
  rewrite E. clear E. rewrite getRandomProfile_draw. cbn [fst].
  assert (Hp : Qltb (random k) (30 # 100) = true).
  { unfold Qltb. apply negb_true_iff. apply not_true_iff_false.
    rewrite Qle_bool_iff. unfold double_0_30 in Hk. lra. }
  rewrite Hp. unfold Spec.tiers_of, Risks.values.
  cbn [Risks.transaction Risks.affordability Risks.employment Risks.behavior
       transaction_history affordability employment behavior].
  repeat constructor; apply integer_tier_ge_50;
    match goal with
    | |- (_ <= Spec.score_clamped_twice ?p ?c (random ?j) _)%Z =>
        pose proof (score_bounds random p c j Hr) as Hs; simpl in Hs; lia
    end.
Qed.

Lemma excellent_customer_not_denied_witness :
  (forall n, 0 <= always_tenth n < 1) /\ always_tenth 0%nat < double_0_30
  /\ (determineDecision (fst (generateCustomer always_tenth 1%nat 0%nat)) = AutoApprove
      \/ determineDecision (fst (generateCustomer always_tenth 1%nat 0%nat))
         = ManualReview).
Proof.
  assert (Hr : forall n, 0 <= always_tenth n < 1)
    by (intros n; split; [discriminate | reflexivity]).
  assert (Hk : always_tenth 0%nat < double_0_30) by reflexivity.
  split; [exact Hr | split; [exact Hk |]].
  exact (excellent_customer_not_denied always_tenth 1%nat 0%nat Hr Hk).
Defined.

(** X10: a customer generated from the profile poor (first draw at
    least 0.90) has an affordability score of at most 45, so the
    decision on it is Auto Deny or Elevated Risk, never Auto Approve or
    Manual Review. *)
Theorem poor_customer_not_approved (random : nat -> Q) (i k : nat) :
  (forall n, 0 <= random n < 1) -> 90 # 100 <= random k ->
  determineDecision (fst (generateCustomer random i k)) = AutoDeny
  \/ determineDecision (fst (generateCustomer random i k)) = ElevatedRisk.
Proof.
  intros Hr Hk.
  rewrite determineDecision_decide. apply affordability_below_moderate.
  pose proof (generateCustomer_scores random i k) as E. cbv zeta in E.
  rewrite E. clear E. rewrite getRandomProfile_draw. cbn [fst].
  assert (H30 : Qltb (random k) (30 # 100) = false)
    by (unfold Qltb; apply negb_false_iff, Qle_bool_iff; lra).
  assert (H70 : Qltb (random k) (70 # 100) = false)
    by (unfold Qltb; apply negb_false_iff, Qle_bool_iff; lra).
  assert (H90 : Qltb (random k) (90 # 100) = false)
    by (unfold Qltb; apply negb_false_iff, Qle_bool_iff; lra).
  rewrite H30, H70, H90. unfold Spec.tiers_of.
  cbn [Risks.affordability affordability].
  apply integer_tier_lt_50.
  pose proof (score_bounds random poor Criterion.affordability (k + 3) Hr) as Hs.
  simpl in Hs. lia.
Qed.

Lemma poor_customer_not_approved_witness :
  (forall n, 0 <= always_top n < 1) /\ 90 # 100 <= always_top 0%nat
  /\ (determineDecision (fst (generateCustomer always_top 1%nat 0%nat)) = AutoDeny
      \/ determineDecision (fst (generateCustomer always_top 1%nat 0%nat))
         = ElevatedRisk).
Proof.
  assert (Hr : forall n, 0 <= always_top n < 1)
    by (intros n; split; [discriminate | reflexivity]).
  assert (Hk : 90 # 100 <= always_top 0%nat) by discriminate.
  split; [exact Hr | split; [exact Hk |]].
  exact (poor_customer_not_approved always_top 1%nat 0%nat Hr Hk).
Defined.

Lemma generateLoop_step (random : nat -> Q) (n i : nat)
  (data : list CustomerRecord) (k : nat) :
  generateLoop random (S n) i data k
  = generateLoop random n (S i) (data ++ [fst (generateCustomer random i k)])
      (snd (generateCustomer random i k)).
Proof.
  change (generateLoop random (S n) i data k)
    with (bind (generateCustomer random i)
            (fun customer => generateLoop random n (S i) (data ++ [customer])) k).
  unfold bind. destruct (generateCustomer random i k). reflexivity.
Qed.

Lemma generateLoop_accumulates (random : nat -> Q) (n : nat) :
  forall (i : nat) (data : list CustomerRecord) (k : nat),
  generateLoop random n i data k
  = (data ++ fst (generateLoop random n i [] k),
     snd (generateLoop random n i [] k)).
Proof.
  induction n as [|n IH]; intros i data k.
  - simpl. unfold ret. rewrite app_nil_r. reflexivity.
  - rewrite !generateLoop_step.
    rewrite (IH (S i) (data ++ _)), (IH (S i) ([] ++ _)).
    cbn [fst snd app]. rewrite <- app_assoc. reflexivity.
Qed.

Lemma generateLoop_add (random : nat -> Q) (n m : nat) :
  forall (i k : nat),
  fst (generateLoop random (n + m) i [] k)
  = fst (generateLoop random n i [] k)
    ++ fst (generateLoop random m (i + n) [] (snd (generateLoop random n i [] k))).
Proof.
  induction n as [|n IH]; intros i k.
  - simpl. rewrite Nat.add_0_r. reflexivity.
  - change (S n + m)%nat with (S (n + m)).
    rewrite !generateLoop_step.
    rewrite (generateLoop_accumulates random (n + m)),
      (generateLoop_accumulates random n).
    cbn [fst snd]. rewrite IH, <- app_assoc.
    replace (S i + n)%nat with (i + S n)%nat by lia. reflexivity.
Qed.

(** X11: for the same draws, asking for more records leaves the first
    ones as they are: the first [n] of [n + m] generated records are
    the [n] records generated alone; and [n] records use exactly [9 n]
    draws. *)
Theorem generateSampleData_prefix (random : nat -> Q) (n m k : nat) :
  firstn n (fst (generateSampleData random (n + m) k))
  = fst (generateSampleData random n k)
  /\ snd (generateSampleData random n k) = (k + 9 * n)%nat.
Proof.
  unfold generateSampleData.
  destruct (generateLoop_spec random n 1 [] k) as (fresh & E & Hlen & _ & _ & Hk).
  split; [| exact Hk].
  rewrite generateLoop_add, E. cbn [app].
  rewrite firstn_app, Hlen, Nat.sub_diag, firstn_O, app_nil_r.
  rewrite <- Hlen. apply firstn_all.
Qed.

(** ** Further properties of the portfolio statistics *)

Lemma countDecision_partition (data : list Processed.t) :
  (countDecision data AutoApprove + countDecision data ManualReview
   + countDecision data ElevatedRisk + countDecision data AutoDeny
   = List.length data)%nat.
Proof.
  unfold countDecision.
  induction data as [|r data IH]; [reflexivity |].
  cbn [filter List.length].
  destruct (Processed.decision r); cbn [Decision_eqb List.length]; lia.
Qed.

Lemma pct_value (cnt n : nat) :
  (of_nat cnt / of_nat (S n) * Num 100)%js
  = Num (inject_Z (Z.of_nat cnt) / inject_Z (Z.of_nat (S n)) * 100).
Proof. reflexivity. Qed.

(** X12: the four decision counts of the summary cards add up to the
    number of records, and for a non-empty batch the four progress-bar
    widths are set and add up to 100 percent. *)
Theorem summary_cards_partition (data : list Processed.t) :
  data <> [] ->
  (countDecision data AutoApprove + countDecision data ManualReview
   + countDecision data ElevatedRisk + countDecision data AutoDeny
   = List.length data)%nat
  /\ exists b : Bars.t,
       progressBars data = Some b
       /\ (Bars.approveBar b + Bars.reviewBar b + Bars.elevatedBar b
           + Bars.denyBar b)%js =n= Num 100.
Proof.
  intros Hne. pose proof (countDecision_partition data) as Hsum.
  split; [exact Hsum |].
  unfold progressBars.
  destruct data as [|r data]; [contradiction |].
  remember (r :: data) as l eqn:El.
  assert (Hlen : List.length l = S (List.length data)) by (subst; reflexivity).
  rewrite Hlen in *.
  assert (Hgt : (of_nat (S (List.length data)) > Num 0)%js = true) by reflexivity.
  rewrite Hgt. eexists. split; [reflexivity |].
  cbn [Bars.approveBar Bars.reviewBar Bars.elevatedBar Bars.denyBar].
  rewrite !pct_value. cbn [JS.add num_eq].
  set (t := inject_Z (Z.of_nat (S (List.length data)))).
  assert (Ht : ~ t == 0).
  { unfold t. intros H. unfold Qeq in H. simpl in H. lia. }
  assert (Et : inject_Z (Z.of_nat (countDecision l AutoApprove))
               + inject_Z (Z.of_nat (countDecision l ManualReview))
               + inject_Z (Z.of_nat (countDecision l ElevatedRisk))
               + inject_Z (Z.of_nat (countDecision l AutoDeny)) == t).
  { unfold t. rewrite <- !inject_Z_plus, <- !Nat2Z.inj_add, Hsum. reflexivity. }
  set (a := inject_Z (Z.of_nat (countDecision l AutoApprove))) in *.
  set (b := inject_Z (Z.of_nat (countDecision l ManualReview))) in *.
  set (c := inject_Z (Z.of_nat (countDecision l ElevatedRisk))) in *.
  set (d := inject_Z (Z.of_nat (countDecision l AutoDeny))) in *.
  setoid_replace (a / t * 100 + b / t * 100 + c / t * 100 + d / t * 100)
    with ((a + b + c + d) / t * 100) by (field; exact Ht).
  rewrite Et. field. exact Ht.
Qed.

Lemma summary_cards_partition_witness :
  tied_batch <> []
  /\ (countDecision tied_batch AutoApprove + countDecision tied_batch ManualReview
      + countDecision tied_batch ElevatedRisk + countDecision tied_batch AutoDeny
      = List.length tied_batch)%nat.
Proof.
  assert (H : tied_batch <> []) by discriminate.
  split; [exact H |].
  exact (proj1 (summary_cards_partition tied_batch H)).
Defined.

Lemma weakestCriterion_some (data : list Processed.t) :
  exists w : Stat.t, weakestCriterion data = Some w.
Proof.
  unfold weakestCriterion. rewrite analyzeCriteria_stats. unfold reduce1.
  eexists. reflexivity.
Qed.

(** X13: on a non-empty batch [updateInsights] never shows the
    placeholder and never throws: it renders between one and five
    insights; "Balanced Risk Profile" appears only as the single
    insight; and "Strong Portfolio Health" and "High Denial Rate Alert"
    never appear together. *)
Theorem updateInsights_nonempty (data : list Processed.t) :
  data <> [] ->
  exists insights : list Insight.t,
    updateInsights data = Rendered insights
    /\ (1 <= List.length insights <= 5)%nat
    /\ (In insight_balanced insights -> insights = [insight_balanced])
    /\ ~ (In insight_strong insights /\ In insight_denial insights).
Proof.
  intros Hne. unfold updateInsights.
  destruct (weakestCriterion_some data) as [w ->].
  destruct data as [|r data]; [contradiction |].
  remember (r :: data) as l eqn:El.
  assert (Hlen : (List.length l =? 0)%nat = false) by (subst; reflexivity).
  rewrite Hlen. unfold push_if, insight_balanced, insight_strong, insight_denial.
  repeat match goal with
  | |- context [if (?x >= ?y)%js then _ else _] => destruct (x >= y)%js
  | |- context [if (?x < ?y)%js then _ else _] => destruct (x < y)%js
  | |- context [if (?x > ?y)%js then _ else _] => destruct (x > y)%js
  end;
  cbn [app List.length Nat.eqb];
  (eexists; split; [reflexivity |]);
  (split; [cbn [List.length]; lia |]);
  (split; [cbn [In]; intros H; intuition discriminate
          | cbn [In]; intros [H1 H2]; intuition discriminate]).
Qed.

Lemma updateInsights_nonempty_witness :
  tied_batch <> []
  /\ exists insights : list Insight.t,
       updateInsights tied_batch = Rendered insights
       /\ (1 <= List.length insights <= 5)%nat.
Proof.
  assert (H : tied_batch <> []) by discriminate.
  split; [exact H |].
  destruct (updateInsights_nonempty tied_batch H) as (l & E & Hl & _).
  exists l. split; [exact E | exact Hl].
Defined.

(** ** Charts *)

Lemma fold_left_sum_map (data : list Processed.t) (f : Processed.t -> number) :
  forall acc : number,
  fold_left (fun sum d => sum + f d)%js data acc
  = fold_left JS.add (map f data) acc.
Proof.
  induction data as [|d data IH]; intros acc; [reflexivity |].
  simpl. apply IH.
Qed.

Lemma radarAverage_average (data : list Processed.t) (f : Processed.t -> number) :
  radarAverage data f = average (map f data).
Proof.
  unfold radarAverage, average. rewrite fold_left_sum_map, length_map.
  reflexivity.
Qed.

(** X14: the values of the radar chart for "all" are the four
    per-criterion means that [analyzeCriteria] computes, in the same
    order, followed by the first one again; for any other identifier
    the chart is drawn exactly when a record has it, with the scores of
    the first such record. *)
Theorem renderRadarChart_values (data : list Processed.t) (customerId : string) :
  option_map Radar.r (renderRadarChart data "all")
  = Some (closePolygon (map Stat.avgScore (analyzeCriteria data)))
  /\ (customerId <> "all"%string ->
      renderRadarChart data customerId
      = option_map
          (fun c => {| Radar.r :=
                         [ Processed.transaction_history c;
                           Processed.affordability c; Processed.employment c;
                           Processed.behavior c; Processed.transaction_history c ];
                       Radar.name := customerId |})
          (find (fun d => String.eqb (Processed.customer_id d) customerId) data)).
Proof.
  split.
  - unfold renderRadarChart. cbn [String.eqb Ascii.eqb Bool.eqb option_map Radar.r].
    rewrite analyzeCriteria_stats, !radarAverage_average. reflexivity.
  - intros Hid. unfold renderRadarChart.
    destruct (String.eqb customerId "all") eqn:E.
    + apply String.eqb_eq in E. contradiction.
    + destruct (find _ data); reflexivity.
Qed.

Lemma level_counts_partition (data : list Processed.t) (f : Processed.t -> number) :
  (List.length (filter (fun d => String.eqb (getRiskLevel (f d)) "Low Risk") data)
   + List.length
       (filter (fun d => String.eqb (getRiskLevel (f d)) "Moderate Risk") data)
   + List.length
       (filter (fun d => String.eqb (getRiskLevel (f d)) "Elevated Risk") data)
   + List.length
       (filter (fun d => String.eqb (getRiskLevel (f d)) "High Risk") data)
   = List.length data)%nat.
Proof.
  induction data as [|d data IH]; [reflexivity |].
  cbn [filter]. rewrite getRiskLevel_label.
  destruct (getCriteriaRisk (f d)); cbn [risk_label String.eqb Ascii.eqb Bool.eqb
    List.length]; lia.
Qed.

(** X15: in the criteria breakdown chart the four traces are Low,
    Moderate, Elevated and High Risk, each with one count per
    criterion, and for every criterion the four counts add up to the
    number of records: each record is counted once per criterion. *)
Theorem renderCriteriaBreakdownChart_partition (data : list Processed.t) :
  exists y1 y2 y3 y4 : list nat,
    renderCriteriaBreakdownChart data
    = [ {| Trace.name := "Low Risk"; Trace.y := y1 |};
        {| Trace.name := "Moderate Risk"; Trace.y := y2 |};
        {| Trace.name := "Elevated Risk"; Trace.y := y3 |};
        {| Trace.name := "High Risk"; Trace.y := y4 |} ]
    /\ List.length y1 = 4%nat /\ List.length y2 = 4%nat
    /\ List.length y3 = 4%nat /\ List.length y4 = 4%nat
    /\ forall j : nat, (j < 4)%nat ->
         (nth j y1 0 + nth j y2 0 + nth j y3 0 + nth j y4 0
          = List.length data)%nat.
Proof.
  unfold renderCriteriaBreakdownChart. cbn [map].
  do 4 eexists. split; [reflexivity |].
  do 4 (split; [reflexivity |]).
  intros j Hj.
  destruct j as [|[|[|[|j]]]]; try lia; cbn [nth];
    [ apply (level_counts_partition data Processed.transaction_history)
    | apply (level_counts_partition data Processed.affordability)
    | apply (level_counts_partition data Processed.employment)
    | apply (level_counts_partition data Processed.behavior) ].
Qed.

(** ** Table rendering *)

Lemma slice_nonneg {A : Type} (l : list A) (s e : Z) :
  (0 <= s <= e)%Z ->
  slice l s e = firstn (Z.to_nat (e - s)) (skipn (Z.to_nat s) l).
Proof.
  intros [Hs He]. unfold slice.
  destruct (s <? 0)%Z eqn:Es; [apply Z.ltb_lt in Es; lia |].
  destruct (e <? 0)%Z eqn:Ee; [apply Z.ltb_lt in Ee; lia |].
  destruct (Z.le_gt_cases (Z.of_nat (List.length l)) s) as [Hge | Hlt].
  - rewrite (Z.min_r s) by lia.
    rewrite (skipn_all2 l) by lia.
    rewrite (skipn_all2 l) by lia. rewrite !firstn_nil. reflexivity.
  - rewrite (Z.min_l s) by lia.
    destruct (Z.le_gt_cases e (Z.of_nat (List.length l))) as [Hel | Hel].
    + rewrite (Z.min_l e) by lia. reflexivity.
    + rewrite (Z.min_r e) by lia.
      rewrite !firstn_all2; [reflexivity | |]; rewrite length_skipn; lia.
Qed.

Lemma ceil_div_Z (t i : Z) : (0 < i)%Z -> (- (- t / i) = (t + i - 1) / i)%Z.
Proof.
  intros Hi. Z.to_euclidean_division_equations. nia.
Qed.

Lemma totalPages_value (total : nat) (pagination : Pagination.t) :
  (0 < Pagination.itemsPerPage pagination)%nat ->
  totalPages total pagination
  = Num (inject_Z
           (Z.of_nat ((total + Pagination.itemsPerPage pagination - 1)
                      / Pagination.itemsPerPage pagination))).
Proof.
  destruct pagination as [cur ipp]. cbn [Pagination.itemsPerPage]. intros Hipp.
  unfold totalPages. cbn [Pagination.itemsPerPage].
  destruct ipp as [|n]; [lia |].
  change (of_nat total / of_nat (S n))%js
    with (Num (inject_Z (Z.of_nat total) / inject_Z (Z.of_nat (S n)))).
  unfold Math_ceil. f_equal. f_equal.
  unfold Qceiling.
  assert (E : - (inject_Z (Z.of_nat total) / inject_Z (Z.of_nat (S n)))
              == inject_Z (- Z.of_nat total) / inject_Z (Z.of_nat (S n))).
  { rewrite inject_Z_opp. field. unfold Qeq. simpl. lia. }
  rewrite E, <- Zdiv_Qdiv, ceil_div_Z by lia.
  rewrite Nat2Z.inj_div, Nat2Z.inj_sub, Nat2Z.inj_add by lia.
  reflexivity.
Qed.

Lemma pageData_nat (l : list Processed.t) (p ipp : nat) :
  (1 <= p)%nat ->
  pageData l {| Pagination.currentPage := Z.of_nat p;
                Pagination.itemsPerPage := ipp |}
  = firstn ipp (skipn ((p - 1) * ipp) l).
Proof.
  intros Hp. unfold pageData. cbn [Pagination.currentPage Pagination.itemsPerPage].
  rewrite slice_nonneg by nia.
  f_equal; [lia |]. f_equal. nia.
Qed.

Lemma chunks_concat (ipp n : nat) :
  forall l : list Processed.t,
  (List.length l <= n * ipp)%nat ->
  List.concat (map (fun p => firstn ipp (skipn ((p - 1) * ipp) l)) (seq 1 n)) = l.
Proof.
  induction n as [|n IH]; intros l Hlen.
  - destruct l; [reflexivity | simpl in Hlen; lia].
  - assert (Erest : map (fun p => firstn ipp (skipn ((p - 1) * ipp) l)) (seq 2 n)
                   = map (fun p => firstn ipp
                                     (skipn ((p - 1) * ipp) (skipn ipp l)))
                       (seq 1 n)).
    { rewrite <- seq_shift, map_map. apply map_ext_in. intros p Hp.
      apply in_seq in Hp. rewrite skipn_skipn. f_equal. f_equal.
      destruct p as [|p]; [lia |]. cbn [Nat.sub]. rewrite Nat.sub_0_r. lia. }
    change (seq 1 (S n)) with (1%nat :: seq 2 n).
    cbn [map List.concat]. rewrite Erest.
    rewrite (IH (skipn ipp l)) by (rewrite length_skipn; lia).
    cbn [Nat.sub Nat.mul skipn]. apply firstn_skipn.
Qed.

Lemma ceil_div_bounds (total ipp : nat) :
  (0 < ipp)%nat ->
  (total <= (total + ipp - 1) / ipp * ipp)%nat
  /\ ((total + ipp - 1) / ipp * ipp < total + ipp)%nat.
Proof.
  intros Hipp.
  pose proof (Nat.div_mod_eq (total + ipp - 1) ipp) as E.
  pose proof (Nat.mod_upper_bound (total + ipp - 1) ipp ltac:(lia)) as Hm.
  nia.
Qed.

(** X16: the pages of the table cut the filtered records into
    consecutive pieces.  With a positive page size, [renderPagination]
    counts [n] pages, the pages 1 to [n] shown by [renderTable] put one
    after the other are exactly the filtered records, each of them has
    between one and [itemsPerPage] rows, and any later page is empty. *)
Theorem pages_partition (filteredData : list Processed.t) (itemsPerPage : nat) :
  (0 < itemsPerPage)%nat ->
  exists n : nat,
    (forall currentPage : Z,
       totalPages (List.length filteredData)
         {| Pagination.currentPage := currentPage;
            Pagination.itemsPerPage := itemsPerPage |}
       = Num (inject_Z (Z.of_nat n)))
    /\ List.concat
         (map (fun p =>
                 pageData filteredData
                   {| Pagination.currentPage := Z.of_nat p;
                      Pagination.itemsPerPage := itemsPerPage |})
              (seq 1 n))
       = filteredData
    /\ (forall p : nat, (1 <= p <= n)%nat ->
          (1 <= List.length
                  (pageData filteredData
                     {| Pagination.currentPage := Z.of_nat p;
                        Pagination.itemsPerPage := itemsPerPage |})
           <= itemsPerPage)%nat)
    /\ (forall p : nat, (n < p)%nat ->
          pageData filteredData
            {| Pagination.currentPage := Z.of_nat p;
               Pagination.itemsPerPage := itemsPerPage |} = []).
Proof.
  intros Hipp.
  set (total := List.length filteredData).
  exists ((total + itemsPerPage - 1) / itemsPerPage)%nat.
  destruct (ceil_div_bounds total itemsPerPage Hipp) as [Hlo Hhi].
  set (n := ((total + itemsPerPage - 1) / itemsPerPage)%nat) in *.
  split; [| split; [| split]].
  - intros cur. apply (totalPages_value total
      {| Pagination.currentPage := cur; Pagination.itemsPerPage := itemsPerPage |}).
    exact Hipp.
  - transitivity
      (List.concat
         (map (fun p => firstn itemsPerPage
                          (skipn ((p - 1) * itemsPerPage) filteredData))
              (seq 1 n))).
    + f_equal. apply map_ext_in. intros p Hp. apply in_seq in Hp.
      apply pageData_nat. lia.
    + apply chunks_concat. exact Hlo.
  - intros p Hp. rewrite pageData_nat by lia.
    rewrite length_firstn, length_skipn. fold total. nia.
  - intros p Hp. rewrite pageData_nat by lia.
    rewrite skipn_all2; [apply firstn_nil |]. fold total. nia.
Qed.

Lemma pages_partition_witness :
  (0 < 15)%nat
  /\ exists n : nat,
       List.concat
         (map (fun p =>
                 pageData tied_batch
                   {| Pagination.currentPage := Z.of_nat p;
                      Pagination.itemsPerPage := 15 |})
              (seq 1 n))
       = tied_batch.
Proof.
  assert (H : (0 < 15)%nat) by lia.
  split; [exact H |].
  destruct (pages_partition tied_batch 15 H) as (n & _ & E & _).
  exists n. exact E.
Defined.

(** X17: the line "Showing a-b of total" agrees with the rows shown:
    on a page that has rows, [b - a + 1] is the number of rows of the
    page and [total] the number of filtered records; the line is left
    unwritten exactly when the page has no row. *)
Theorem tableInfo_counts_rows (filteredData : list Processed.t)
  (pagination : Pagination.t) :
  (1 <= Pagination.currentPage pagination)%Z ->
  match tableInfo filteredData pagination with
  | Some (a, b, total) =>
      (b - a + 1 = Z.of_nat (List.length (pageData filteredData pagination)))%Z
      /\ total = Z.of_nat (List.length filteredData)
      /\ pageData filteredData pagination <> []
  | None => pageData filteredData pagination = []
  end.
Proof.
  intros Hcur. unfold tableInfo.
  destruct (List.length (pageData filteredData pagination) =? 0)%nat eqn:E.
  - apply Nat.eqb_eq in E. apply length_zero_iff_nil. exact E.
  - apply Nat.eqb_neq in E.
    split; [| split; [reflexivity | intros H; rewrite H in E; apply E; reflexivity]].
    revert E. unfold pageData. destruct pagination as [cur ipp].
    cbn [Pagination.currentPage Pagination.itemsPerPage] in *.
    rewrite slice_nonneg by nia.
    rewrite length_firstn, length_skipn. nia.
Qed.

Lemma tableInfo_counts_rows_witness :
  (1 <= 1)%Z
  /\ pageData tied_batch
       {| Pagination.currentPage := 1; Pagination.itemsPerPage := 15 |} <> [].
Proof.
  assert (H : (1 <= 1)%Z) by lia.
  split; [exact H |].
  exact (proj2 (proj2 (tableInfo_counts_rows tied_batch
                         {| Pagination.currentPage := 1;
                            Pagination.itemsPerPage := 15 |} H))).
Defined.

(** ** The pagination bar *)

Lemma renderPagination_value (filteredData : list Processed.t)
  (pagination : Pagination.t) :
  (0 < Pagination.itemsPerPage pagination)%nat ->
  let n := ((List.length filteredData + Pagination.itemsPerPage pagination - 1)
            / Pagination.itemsPerPage pagination)%nat in
  let currentPage := Pagination.currentPage pagination in
  renderPagination filteredData pagination
  = if (n <=? 1)%nat then Cleared
    else
      Buttons
        ([{| Button.disabled := (currentPage =? 1)%Z; Button.active := false;
             Button.dataPage := Some (currentPage - 1)%Z |}]
         ++ flat_map (fun i => pageButtons currentPage (Z.of_nat n) (Z.of_nat i))
              (seq 1 n)
         ++ [{| Button.disabled := (currentPage =? Z.of_nat n)%Z;
                Button.active := false;
                Button.dataPage := Some (currentPage + 1)%Z |}]).
Proof.
  intros Hipp. cbv zeta. unfold renderPagination.
  rewrite (totalPages_value _ _ Hipp).
  set (n := ((List.length filteredData + Pagination.itemsPerPage pagination - 1)
             / Pagination.itemsPerPage pagination)%nat).
  rewrite Qfloor_Z, Nat2Z.id.
  destruct (n <=? 1)%nat eqn:En.
  - apply Nat.leb_le in En.
    assert (H : Qle_bool (inject_Z (Z.of_nat n)) 1 = true).
    { apply Qle_bool_iff. change 1 with (inject_Z 1). rewrite <- Zle_Qle. lia. }
    rewrite H. reflexivity.
  - apply Nat.leb_gt in En.
    assert (H : Qle_bool (inject_Z (Z.of_nat n)) 1 = false).
    { apply not_true_iff_false. rewrite Qle_bool_iff.
      change 1 with (inject_Z 1). rewrite <- Zle_Qle. lia. }
    rewrite H. reflexivity.
Qed.

Lemma pageButtons_length (currentPage last i : Z) :
  (List.length (pageButtons currentPage last i)
   <= if existsb (Z.eqb i)
           [1; last; currentPage - 2; currentPage - 1; currentPage;
            currentPage + 1; currentPage + 2]%Z
      then 1 else 0)%nat.
Proof.
  unfold pageButtons. cbn [existsb].
  destruct (i =? 1)%Z eqn:E1; [simpl; lia |].
  destruct (i =? last)%Z eqn:E2; [simpl; lia |].
  destruct (i =? currentPage - 2)%Z eqn:E3; [rewrite !orb_true_r; simpl;
    destruct (_ && _); simpl; lia |].
  destruct (i =? currentPage + 2)%Z eqn:E4;
    [rewrite !orb_true_r; simpl; destruct (_ && _); simpl; lia |].
  destruct (i =? currentPage - 1)%Z eqn:E5; [simpl; destruct (_ && _); simpl; lia |].
  destruct (i =? currentPage)%Z eqn:E6; [simpl; destruct (_ && _); simpl; lia |].
  destruct (i =? currentPage + 1)%Z eqn:E7; [simpl; destruct (_ && _); simpl; lia |].
  cbn [orb].
  destruct ((currentPage - 1 <=? i)%Z && (i <=? currentPage + 1)%Z) eqn:E8;
    [| simpl; lia].
  apply andb_true_iff in E8. destruct E8 as [Ha Hb].
  apply Z.leb_le in Ha, Hb. apply Z.eqb_neq in E5, E6, E7. lia.
Qed.

Lemma flat_map_length_filter {A B : Type} (f : A -> list B) (p : A -> bool)
  (l : list A) :
  (forall x, (List.length (f x) <= if p x then 1 else 0)%nat) ->
  (List.length (flat_map f l) <= List.length (filter p l))%nat.
Proof.
  intros Hf. induction l as [|x l IH]; [simpl; lia |].
  cbn [flat_map filter]. rewrite length_app. specialize (Hf x).
  destruct (p x); cbn [List.length]; lia.
Qed.

Lemma page_loop_length (currentPage last : Z) (n : nat) :
  (List.length
     (flat_map (fun i => pageButtons currentPage last (Z.of_nat i)) (seq 1 n))
   <= 7)%nat.
Proof.
  set (S := [1; last; currentPage - 2; currentPage - 1; currentPage;
             currentPage + 1; currentPage + 2]%Z).
  set (hits := fun i : nat => existsb (Z.eqb (Z.of_nat i)) S).
  etransitivity.
  - apply (flat_map_length_filter _ hits). intros i.
    apply pageButtons_length.
  - change 7%nat with (List.length S).
    rewrite <- (length_map Z.of_nat).
    apply NoDup_incl_length.
    + apply Injective_map_NoDup; [intros x y; apply Nat2Z.inj |].
      apply NoDup_filter, seq_NoDup.
    + intros z Hz. apply in_map_iff in Hz. destruct Hz as (i & <- & Hi).
      apply filter_In in Hi. destruct Hi as [_ Hi]. unfold hits in Hi.
      apply existsb_exists in Hi. destruct Hi as (s & Hs & E).
      apply Z.eqb_eq in E. rewrite E. exact Hs.
Qed.

(** X18: with a positive page size the pagination bar is always
    computed: it is cleared exactly when the filtered records fit on
    one page, and otherwise it has at most nine buttons, however many
    pages there are and whatever the current page is. *)
Theorem renderPagination_bounded (filteredData : list Processed.t)
  (pagination : Pagination.t) :
  (0 < Pagination.itemsPerPage pagination)%nat ->
  match renderPagination filteredData pagination with
  | Cleared =>
      (List.length filteredData <= Pagination.itemsPerPage pagination)%nat
  | Buttons buttons =>
      (Pagination.itemsPerPage pagination < List.length filteredData)%nat
      /\ (2 <= List.length buttons <= 9)%nat
  | Unbounded => False
  end.
Proof.
  intros Hipp.
  pose proof (renderPagination_value filteredData pagination Hipp) as E.
  cbv zeta in E. rewrite E. clear E.
  destruct (ceil_div_bounds (List.length filteredData)
              (Pagination.itemsPerPage pagination) Hipp) as [Hlo Hhi].
  set (n := ((List.length filteredData + Pagination.itemsPerPage pagination - 1)
             / Pagination.itemsPerPage pagination)%nat) in *.
  destruct (n <=? 1)%nat eqn:En.
  - apply Nat.leb_le in En. nia.
  - apply Nat.leb_gt in En. split; [nia |].
    rewrite !length_app. cbn [List.length].
    pose proof (page_loop_length (Pagination.currentPage pagination)
                  (Z.of_nat n) n). lia.
Qed.

Lemma renderPagination_bounded_witness :
  (0 < 15)%nat
  /\ renderPagination tied_batch
       {| Pagination.currentPage := 1; Pagination.itemsPerPage := 15 |}
     <> Unbounded.
Proof.
  assert (H : (0 < 15)%nat) by lia.
  split; [exact H |].
  pose proof (renderPagination_bounded tied_batch
                {| Pagination.currentPage := 1; Pagination.itemsPerPage := 15 |} H)
    as B.
  intros U. rewrite U in B. exact B.
Defined.

Lemma pageButtons_cases (currentPage last i : Z) (b : Button.t) :
  In b (pageButtons currentPage last i) ->
  b = {| Button.disabled := false; Button.active := (i =? currentPage)%Z;
         Button.dataPage := Some i |}
  \/ b = {| Button.disabled := true; Button.active := false;
            Button.dataPage := None |}.
Proof.
  unfold pageButtons.
  destruct ((i =? 1)%Z || (i =? last)%Z
            || ((currentPage - 1 <=? i)%Z && (i <=? currentPage + 1)%Z)).
  - intros [<- | []]. left. reflexivity.
  - destruct ((i =? currentPage - 2)%Z || (i =? currentPage + 2)%Z).
    + intros [<- | []]. right. reflexivity.
    + intros [].
Qed.

(** X19: clicking any button of the pagination bar leaves a current
    page that exists.  If the page size is positive and the current
    page exists, then for every button of the bar the click handler
    yields a state (never an undefined page) whose current page exists
    and whose page size is unchanged. *)
Theorem clickPage_keeps_page (filteredData : list Processed.t)
  (pagination : Pagination.t) (buttons : list Button.t) (button : Button.t) :
  (0 < Pagination.itemsPerPage pagination)%nat ->
  page_exists filteredData pagination ->
  renderPagination filteredData pagination = Buttons buttons ->
  In button buttons ->
  exists pagination' : Pagination.t,
    clickPage pagination button = Some pagination'
    /\ page_exists filteredData pagination'
    /\ Pagination.itemsPerPage pagination' = Pagination.itemsPerPage pagination.
Proof.
  intros Hipp [Hcur Hrow] Hbar Hin.
  pose proof (renderPagination_value filteredData pagination Hipp) as E.
  cbv zeta in E. rewrite E in Hbar. clear E.
  destruct (ceil_div_bounds (List.length filteredData)
              (Pagination.itemsPerPage pagination) Hipp) as [Hlo Hhi].
  set (n := ((List.length filteredData + Pagination.itemsPerPage pagination - 1)
             / Pagination.itemsPerPage pagination)%nat) in *.
  destruct (n <=? 1)%nat; [discriminate |].
  injection Hbar as <-.
  destruct pagination as [cur ipp].
  cbn [Pagination.currentPage Pagination.itemsPerPage] in *.
  assert (Hn : (cur <= Z.of_nat n)%Z) by nia.
  unfold page_exists, clickPage.
  cbn [app] in Hin. destruct Hin as [<- | Hin].
  - cbn [Button.disabled Button.dataPage].
    destruct (cur =? 1)%Z eqn:E1; eexists; (split; [reflexivity |]);
      cbn [Pagination.currentPage Pagination.itemsPerPage];
      (split; [| reflexivity]); [lia |].
    apply Z.eqb_neq in E1. nia.
  - apply in_app_or in Hin. destruct Hin as [Hin | [<- | []]].
    + apply in_flat_map in Hin. destruct Hin as (i & Hi & Hb).
      apply in_seq in Hi.
      destruct (pageButtons_cases _ _ _ _ Hb) as [-> | ->];
        cbn [Button.disabled Button.dataPage]; eexists;
        (split; [reflexivity |]);
        cbn [Pagination.currentPage Pagination.itemsPerPage];
        (split; [| reflexivity]); nia.
    + cbn [Button.disabled Button.dataPage].
      destruct (cur =? Z.of_nat n)%Z eqn:E1; eexists; (split; [reflexivity |]);
        cbn [Pagination.currentPage Pagination.itemsPerPage];
        (split; [| reflexivity]); [lia |].
      apply Z.eqb_neq in E1. nia.
Qed.

Lemma clickPage_keeps_page_witness :
  exists pagination' : Pagination.t,
    clickPage second_page
      {| Button.disabled := false; Button.active := false;
         Button.dataPage := Some 3%Z |}
    = Some pagination'
    /\ page_exists forty_records pagination'.
Proof.
  destruct (clickPage_keeps_page forty_records second_page
              [ {| Button.disabled := false; Button.active := false;
                   Button.dataPage := Some 1%Z |};
                {| Button.disabled := false; Button.active := false;
                   Button.dataPage := Some 1%Z |};
                {| Button.disabled := false; Button.active := true;
                   Button.dataPage := Some 2%Z |};
                {| Button.disabled := false; Button.active := false;
                   Button.dataPage := Some 3%Z |};
                {| Button.disabled := false; Button.active := false;
                   Button.dataPage := Some 3%Z |} ]
              {| Button.disabled := false; Button.active := false;
                 Button.dataPage := Some 3%Z |})
    as (p & E & H & _).
  - simpl. lia.
  - unfold page_exists. simpl. lia.
  - reflexivity.
  - simpl. tauto.
  - exists p. split; [exact E | exact H].
Defined.

Lemma filter_flat_map {A B : Type} (f : A -> list B) (p : B -> bool) (l : list A) :
  filter p (flat_map f l) = flat_map (fun x => filter p (f x)) l.
Proof.
  induction l as [|x l IH]; [reflexivity |].
  cbn [flat_map]. rewrite filter_app, IH. reflexivity.
Qed.

Lemma pageButtons_active (currentPage last i : Z) :
  filter Button.active (pageButtons currentPage last i)
  = if (i =? currentPage)%Z
    then [{| Button.disabled := false; Button.active := true;
             Button.dataPage := Some currentPage |}]
    else [].
Proof.
  unfold pageButtons.
  destruct (i =? currentPage)%Z eqn:E.
  - apply Z.eqb_eq in E. subst i.
    assert (H : ((currentPage - 1 <=? currentPage)%Z
                 && (currentPage <=? currentPage + 1)%Z) = true)
      by (apply andb_true_iff; split; apply Z.leb_le; lia).
    rewrite H, orb_true_r. reflexivity.
  - destruct ((i =? 1)%Z || (i =? last)%Z
              || ((currentPage - 1 <=? i)%Z && (i <=? currentPage + 1)%Z));
      [reflexivity |].
    destruct ((i =? currentPage - 2)%Z || (i =? currentPage + 2)%Z); reflexivity.
Qed.

Lemma single_hit {B : Type} (c : nat) (b : B) (len : nat) :
  forall start : nat,
  flat_map (fun i => if (Z.of_nat i =? Z.of_nat c)%Z then [b] else [])
    (seq start len)
  = if (start <=? c)%nat && (c <? start + len)%nat then [b] else [].
Proof.
  induction len as [|len IH]; intros start.
  - simpl. destruct (start <=? c)%nat eqn:E1; [| reflexivity].
    destruct (c <? start + 0)%nat eqn:E2; [| reflexivity].
    apply Nat.leb_le in E1. apply Nat.ltb_lt in E2. lia.
  - cbn [seq flat_map]. rewrite IH.
    destruct (Z.of_nat start =? Z.of_nat c)%Z eqn:E.
    + apply Z.eqb_eq in E. apply Nat2Z.inj in E. subst c.
      assert (H1 : (S start <=? start)%nat = false) by (apply Nat.leb_gt; lia).
      assert (H2 : (start <=? start)%nat = true) by (apply Nat.leb_le; lia).
      assert (H3 : (start <? start + S len)%nat = true)
        by (apply Nat.ltb_lt; lia).
      rewrite H1, H2, H3. reflexivity.
    + apply Z.eqb_neq in E. cbn [app].
      destruct (S start <=? c)%nat eqn:E1; destruct (start <=? c)%nat eqn:E2;
      destruct (c <? S start + len)%nat eqn:E3;
      destruct (c <? start + S len)%nat eqn:E4; try reflexivity;
      repeat match goal with
      | H : (_ <=? _)%nat = true |- _ => apply Nat.leb_le in H
      | H : (_ <=? _)%nat = false |- _ => apply Nat.leb_gt in H
      | H : (_ <? _)%nat = true |- _ => apply Nat.ltb_lt in H
      | H : (_ <? _)%nat = false |- _ => apply Nat.ltb_ge in H
      end; lia.
Qed.

(** X20: when the current page exists, exactly one button of the
    pagination bar carries the class [active]: the enabled button of
    the current page. *)
Theorem active_button_unique (filteredData : list Processed.t)
  (pagination : Pagination.t) (buttons : list Button.t) :
  (0 < Pagination.itemsPerPage pagination)%nat ->
  page_exists filteredData pagination ->
  renderPagination filteredData pagination = Buttons buttons ->
  filter Button.active buttons
  = [{| Button.disabled := false; Button.active := true;
        Button.dataPage := Some (Pagination.currentPage pagination) |}].
Proof.
  intros Hipp [Hcur Hrow] Hbar.
  pose proof (renderPagination_value filteredData pagination Hipp) as E.
  cbv zeta in E. rewrite E in Hbar. clear E.
  destruct (ceil_div_bounds (List.length filteredData)
              (Pagination.itemsPerPage pagination) Hipp) as [Hlo Hhi].
  set (n := ((List.length filteredData + Pagination.itemsPerPage pagination - 1)
             / Pagination.itemsPerPage pagination)%nat) in *.
  destruct (n <=? 1)%nat; [discriminate |].
  injection Hbar as <-.
  destruct pagination as [cur ipp].
  cbn [Pagination.currentPage Pagination.itemsPerPage] in *.
  assert (Hn : (cur <= Z.of_nat n)%Z) by nia.
  cbn [app filter Button.active].
  rewrite filter_app, filter_flat_map. cbn [filter Button.active].
  rewrite (flat_map_ext _ _ (fun i => pageButtons_active cur (Z.of_nat n)
                                        (Z.of_nat i))).
  assert (Hc : cur = Z.of_nat (Z.to_nat cur)) by lia.
  remember (Z.to_nat cur) as c eqn:Ec. rewrite Hc.
  rewrite single_hit.
  assert (H1 : (1 <=? c)%nat = true) by (apply Nat.leb_le; lia).
  assert (H2 : (c <? 1 + n)%nat = true) by (apply Nat.ltb_lt; lia).
  rewrite H1, H2. reflexivity.
Qed.

Lemma active_button_unique_witness :
  List.length
    (filter Button.active
       [ {| Button.disabled := false; Button.active := false;
            Button.dataPage := Some 1%Z |};
         {| Button.disabled := false; Button.active := false;
            Button.dataPage := Some 1%Z |};
         {| Button.disabled := false; Button.active := true;
            Button.dataPage := Some 2%Z |};
         {| Button.disabled := false; Button.active := false;
            Button.dataPage := Some 3%Z |};
         {| Button.disabled := false; Button.active := false;
            Button.dataPage := Some 3%Z |} ]) = 1%nat.
Proof.
  rewrite (active_button_unique forty_records second_page).
  - reflexivity.
  - simpl. lia.
  - unfold page_exists. simpl. lia.
  - reflexivity.
Defined.

(** ** CSS classes *)

(** X21: the fallback class of the badges is never used on what the
    engine produces: for every number the class of the risk badge of
    its risk level is the category name that also colours the score
    cell, and for every record the decision badge has one of the four
    decision classes. *)
Theorem badge_classes (score : number) (customer : CustomerRecord) :
  getRiskBadgeClass (getRiskLevel score)
  = criteria_risk_key (getCriteriaRisk score)
  /\ getScoreClass score
     = ("score-" ++ getRiskBadgeClass (getRiskLevel score))%string
  /\ getRiskBadgeClass (Processed.risk_level (processCustomer customer))
     <> ""%string
  /\ In (getDecisionClass
           (decision_label (Processed.decision (processCustomer customer))))
        ["decision-approve"; "decision-review"; "decision-elevated";
         "decision-deny"]%string.
Proof.
  assert (Hbadge : forall s, getRiskBadgeClass (getRiskLevel s)
                             = criteria_risk_key (getCriteriaRisk s)).
  { intros s. rewrite getRiskLevel_label.
    destruct (getCriteriaRisk s); reflexivity. }
  split; [apply Hbadge |]. split.
  - unfold getScoreClass. rewrite Hbadge. reflexivity.
  - split.
    + change (Processed.risk_level (processCustomer customer))
        with (getRiskLevel (calculateCombinedScore customer)).
      rewrite Hbadge.
      destruct (getCriteriaRisk (calculateCombinedScore customer)); discriminate.
    + destruct (Processed.decision (processCustomer customer)); simpl; tauto.
Qed.

(** ** CSV upload *)

Lemma or_zero_not_NaN (x : number) : isNaN (x || Num 0)%js = false.
Proof.
  destruct x as [q | | |]; try reflexivity.
  unfold JS.or, truthy. destruct (Qis_zero q); reflexivity.
Qed.

Lemma or_zero_not_NaN_field (parseFloat : option string -> number) (row : Row) :
  isNaN (transaction_history (toRecord parseFloat row)) = false
  /\ isNaN (affordability (toRecord parseFloat row)) = false
  /\ isNaN (employment (toRecord parseFloat row)) = false
  /\ isNaN (behavior (toRecord parseFloat row)) = false.
Proof.
  unfold toRecord.
  cbn [transaction_history affordability employment behavior].
  rewrite !or_zero_not_NaN. repeat split.
Qed.

(** X22: the [isNaN] tests of the upload never reject a row.  After
    [parseFloat(...) || 0] no score is [NaN], so a row is dropped
    exactly when its trimmed customer id is empty, whatever the cells
    of the four scores contain. *)
Theorem validRow_only_checks_id (parseFloat : option string -> number) (row : Row) :
  validRow (toRecord parseFloat row)
  = negb (String.eqb (customer_id (toRecord parseFloat row)) "")
  /\ isNaN (transaction_history (toRecord parseFloat row)) = false
  /\ isNaN (affordability (toRecord parseFloat row)) = false
  /\ isNaN (employment (toRecord parseFloat row)) = false
  /\ isNaN (behavior (toRecord parseFloat row)) = false.
Proof.
  unfold validRow, toRecord.
  cbn [customer_id transaction_history affordability employment behavior].
  rewrite !or_zero_not_NaN. cbn [negb]. rewrite !andb_true_r.
  repeat split.
Qed.

Lemma zero_score_denied (id : string) (a b c d : number) :
  a = Num 0 \/ b = Num 0 \/ c = Num 0 \/ d = Num 0 ->
  determineDecision
    {| customer_id := id; transaction_history := a; affordability := b;
       employment := c; behavior := d |} = AutoDeny.
Proof.
  intros H. rewrite determineDecision_decide. apply high_tier_denied.
  unfold Spec.tiers_of, Risks.values.
  cbn [Risks.transaction Risks.affordability Risks.employment Risks.behavior
       transaction_history affordability employment behavior].
  destruct H as [-> | [-> | [-> | ->]]];
    change (getCriteriaRisk (Num 0)) with high; simpl; tauto.
Qed.

Lemma loaded_rows (parseFloat : option string -> number) (rows : list Row)
  (data : list CustomerRecord) (invalidCount : nat) :
  processCSVFile parseFloat rows = Loaded data invalidCount ->
  data = filter validRow (map (toRecord parseFloat) rows).
Proof.
  unfold processCSVFile.
  destruct (0 <? _)%nat; [discriminate |].
  destruct (_ =? 0)%nat; [discriminate |].
  intros H. injection H as <- _. reflexivity.
Qed.

(** X23: a row with a score cell that does not parse as a number is
    not skipped: the score is taken as 0, and the record is denied.
    If the trimmed customer id of the row is not empty and
    [parseFloat] returns [NaN] for the cell of one of the four criteria
    (the cell may also be missing), then the row passes the validity
    test; whenever the file is loaded, the record of the row is among
    the loaded data; that score of the record is 0; and the decision on
    the record is Auto Deny. *)
Theorem unparsed_score_denied (parseFloat : option string -> number) (row : Row)
  (criterion : string) :
  In criterion ["transaction_history"; "affordability"; "employment";
                "behavior"]%string ->
  parseFloat (lookup (normalize row) criterion) = NaN ->
  customer_id (toRecord parseFloat row) <> ""%string ->
  validRow (toRecord parseFloat row) = true
  /\ (forall (rows : list Row) (data : list CustomerRecord) (invalidCount : nat),
        In row rows ->
        processCSVFile parseFloat rows = Loaded data invalidCount ->
        In (toRecord parseFloat row) data)
  /\ get (processCustomer (toRecord parseFloat row)) criterion = Num 0
  /\ determineDecision (toRecord parseFloat row) = AutoDeny.
Proof.
  intros Hin Hnan Hid.
  assert (Hvalid : validRow (toRecord parseFloat row) = true).
  { unfold validRow.
    destruct (or_zero_not_NaN_field parseFloat row) as (N1 & N2 & N3 & N4).
    rewrite N1, N2, N3, N4. cbn [negb]. rewrite !andb_true_r.
    apply negb_true_iff. apply String.eqb_neq. exact Hid. }
  split; [exact Hvalid |]. split.
  - intros rows data invalidCount Hrow Hload.
    rewrite (loaded_rows _ _ _ _ Hload).
    apply filter_In. split; [apply in_map; exact Hrow | exact Hvalid].
  - unfold toRecord. split.
    + cbn [In] in Hin.
      destruct Hin as [<- | [<- | [<- | [<- | []]]]];
        unfold get, processCustomer; cbn; rewrite Hnan; reflexivity.
    + apply zero_score_denied. cbn [In] in Hin.
      destruct Hin as [<- | [<- | [<- | [<- | []]]]]; rewrite Hnan; tauto.
Qed.

Lemma unparsed_score_denied_witness :
  parse_digits (lookup (normalize unparsed_row) "affordability") = NaN
  /\ customer_id (toRecord parse_digits unparsed_row) <> ""%string
  /\ toRecord parse_digits unparsed_row = record 85 0 90 88
  /\ processCSVFile parse_digits [unparsed_row] = Loaded [record 85 0 90 88] 0
  /\ validRow (record 85 0 90 88) = true
  /\ In (record 85 0 90 88) [record 85 0 90 88]
  /\ get (processCustomer (record 85 0 90 88)) "affordability" = Num 0
  /\ determineDecision (record 85 0 90 88) = AutoDeny.
Proof.
  assert (H : parse_digits (lookup (normalize unparsed_row) "affordability") = NaN)
    by reflexivity.
  assert (Hid : customer_id (toRecord parse_digits unparsed_row) <> ""%string)
    by discriminate.
  assert (Hrec : toRecord parse_digits unparsed_row = record 85 0 90 88)
    by reflexivity.
  assert (Hload : processCSVFile parse_digits [unparsed_row]
                  = Loaded [record 85 0 90 88] 0) by reflexivity.
  split; [exact H | split; [exact Hid | split; [exact Hrec | split; [exact Hload |]]]].
  rewrite <- Hrec.
  destruct (unparsed_score_denied parse_digits unparsed_row "affordability"
              (or_intror (or_introl eq_refl)) H Hid) as (Hv & Hin & Hs & Hd).
  split; [exact Hv |].
  split; [rewrite Hrec in *; exact (Hin [unparsed_row] _ 0%nat (or_introl eq_refl) Hload) |].
  split; [exact Hs | exact Hd].
Defined.

(** *** The test of the column names *)

Lemma startsWith_app (w : string) :
  forall s : string,
  startsWith s w = true <-> exists b : string, s = (w ++ b)%string.
Proof.
  induction w as [|c w IH]; intros s.
  - split; [intros _; exists s; reflexivity | intros _; destruct s; reflexivity].
  - destruct s as [|d s]; simpl.
    + split; [discriminate | intros [b H]; discriminate].
    + rewrite andb_true_iff, Ascii.eqb_eq, IH. split.
      * intros [-> [b ->]]. exists b. reflexivity.
      * intros [b H]. injection H as -> ->. split; [reflexivity |].
        exists b. reflexivity.
Qed.

Lemma includes_app (w s : string) :
  includes s w = true <-> exists a b : string, s = (a ++ w ++ b)%string.
Proof.
  induction s as [|d s IH].
  - cbn [includes]. rewrite orb_false_r, startsWith_app. split.
    + intros [b H]. exists EmptyString, b. exact H.
    + intros (a & b & H). destruct a; [exists b; exact H | discriminate].
  - cbn [includes]. rewrite orb_true_iff, startsWith_app, IH. split.
    + intros [[b H] | (a & b & H)].
      * exists EmptyString, b. exact H.
      * exists (String d a), b. simpl. rewrite H. reflexivity.
    + intros (a & b & H). destruct a as [|e a].
      * left. exists b. exact H.
      * right. simpl in H. injection H as -> ->. exists a, b. reflexivity.
Qed.

Lemma replaceSpaces_word (w : string) :
  no_space w = true ->
  forall b : string,
  replaceSpaces false (w ++ b) = (w ++ replaceSpaces false b)%string.
Proof.
  induction w as [|c w IH]; intros Hw b; [reflexivity |].
  simpl in Hw. apply andb_true_iff in Hw. destruct Hw as [Hc Hw].
  apply negb_true_iff in Hc. simpl. rewrite Hc, (IH Hw). reflexivity.
Qed.

Lemma replaceSpaces_keeps (c : ascii) (w : string) :
  no_space (String c w) = true ->
  forall (a b : string) (in_run : bool),
  replaceSpaces in_run (a ++ String c w ++ b)
  = (replaceSpaces in_run a ++ String c w ++ replaceSpaces false b)%string.
Proof.
  intros Hw a. induction a as [|d a IH]; intros b in_run.
  - simpl in Hw. apply andb_true_iff in Hw. destruct Hw as [Hc Hw].
    apply negb_true_iff in Hc. simpl. rewrite Hc, (replaceSpaces_word w Hw).
    reflexivity.
  - change (String d a ++ String c w ++ b)%string
      with (String d (a ++ String c w ++ b)).
    cbn [replaceSpaces].
    destruct (is_space d); [destruct in_run |]; rewrite IH; reflexivity.
Qed.

Lemma includes_replaceSpaces (c : ascii) (w s : string) :
  no_space (String c w) = true ->
  includes s (String c w) = true ->
  includes (replaceSpaces false s) (String c w) = true.
Proof.
  intros Hw H. apply includes_app in H. destruct H as (a & b & ->).
  apply includes_app. rewrite (replaceSpaces_keeps c w Hw).
  eexists. eexists. reflexivity.
Qed.

Lemma presence_test_fails (key word : string) (c : ascii) (w : string) :
  word = String c w -> no_space word = true ->
  includes (normalizedKey key) word = false ->
  includes (trim (toLowerCase key)) word = false.
Proof.
  intros -> Hw Hnorm.
  destruct (includes (trim (toLowerCase key)) (String c w)) eqn:E; [| reflexivity].
  unfold normalizedKey in Hnorm.
  rewrite (includes_replaceSpaces c w _ Hw E) in Hnorm. discriminate.
Qed.

Lemma required_names_lack (name : string) :
  In name requiredColumns ->
  includes name "customerid" = false
  /\ includes name "transactionhistory" = false.
Proof.
  unfold requiredColumns. cbn [In].
  intros [<- | [<- | [<- | [<- | [<- | []]]]]]; split; reflexivity.
Qed.

(** X25: no column both has a required name and passes the presence
    test for [customer_id] or [transaction_history].  The test looks
    for the required name without its underscore inside the
    lower-cased, trimmed column name; a column name that normalises to
    one of the five required names contains neither "customerid" nor
    "transactionhistory". *)
Theorem required_name_fails_presence_test (key : string) :
  In (normalizedKey key) requiredColumns ->
  removeFirstUnderscore "customer_id" = "customerid"%string
  /\ removeFirstUnderscore "transaction_history" = "transactionhistory"%string
  /\ includes (trim (toLowerCase key)) (removeFirstUnderscore "customer_id")
     = false
  /\ includes (trim (toLowerCase key))
       (removeFirstUnderscore "transaction_history") = false.
Proof.
  intros Hin. destruct (required_names_lack _ Hin) as [H1 H2].
  split; [reflexivity | split; [reflexivity |]].
  split.
  - apply (presence_test_fails key "customerid" "c" "ustomerid");
      [reflexivity | reflexivity | exact H1].
  - apply (presence_test_fails key "transactionhistory" "t" "ransactionhistory");
      [reflexivity | reflexivity | exact H2].
Qed.

Lemma required_name_fails_presence_test_witness :
  In (normalizedKey " Customer ID ") requiredColumns
  /\ includes (trim (toLowerCase " Customer ID "))
       (removeFirstUnderscore "customer_id") = false.
Proof.
  assert (H : In (normalizedKey " Customer ID ") requiredColumns)
    by (left; reflexivity).
  split; [exact H |].
  exact (proj1 (proj2 (proj2 (required_name_fails_presence_test
                                " Customer ID " H)))).
Defined.

Lemma existsb_all_false {A : Type} (p : A -> bool) (l : list A) :
  (forall x, In x l -> p x = false) -> existsb p l = false.
Proof.
  intros H. induction l as [|x l IH]; [reflexivity |].
  simpl. rewrite (H x (or_introl eq_refl)), IH; [reflexivity |].
  intros y Hy. apply H. right. exact Hy.
Qed.

Lemma header_rejected (parseFloat : option string -> number) (rows : list Row) :
  (forall key, In key (map fst (hd [] rows)) ->
     includes (normalizedKey key) "customerid" = false
     /\ includes (normalizedKey key) "transactionhistory" = false) ->
  exists missing : list string,
    processCSVFile parseFloat rows = MissingColumns missing
    /\ In "customer_id"%string missing
    /\ In "transaction_history"%string missing.
Proof.
  intros Hkeys. unfold processCSVFile.
  change (match rows with [] => [] | first :: _ => first end) with (hd [] rows).
  set (columns := map (fun c => trim (toLowerCase c)) (map fst (hd [] rows))).
  set (missing :=
         filter (fun col =>
                   negb (existsb (fun c => includes c (removeFirstUnderscore col))
                                 columns))
                requiredColumns).
  assert (Hc : forall word ch w,
             word = String ch w -> no_space word = true ->
             (forall key, In key (map fst (hd [] rows)) ->
                includes (normalizedKey key) word = false) ->
             existsb (fun c => includes c word) columns = false).
  { intros word ch w Ew Hw Hall. apply existsb_all_false.
    intros c Hin. unfold columns in Hin. apply in_map_iff in Hin.
    destruct Hin as (key & <- & Hkey).
    apply (presence_test_fails key word ch w Ew Hw). apply Hall. exact Hkey. }
  assert (H1 : In "customer_id"%string missing).
  { unfold missing. apply filter_In. split; [left; reflexivity |].
    change (removeFirstUnderscore "customer_id") with "customerid"%string.
    rewrite (Hc "customerid"%string "c"%char "ustomerid"%string);
      [reflexivity | reflexivity | reflexivity |].
    intros key Hkey. apply Hkeys. exact Hkey. }
  assert (H2 : In "transaction_history"%string missing).
  { unfold missing. apply filter_In. split; [right; left; reflexivity |].
    change (removeFirstUnderscore "transaction_history")
      with "transactionhistory"%string.
    rewrite (Hc "transactionhistory"%string "t"%char "ransactionhistory"%string);
      [reflexivity | reflexivity | reflexivity |].
    intros key Hkey. apply Hkeys. exact Hkey. }
  exists missing.
  destruct missing as [|m missing']; [destruct H1 |].
  cbn [List.length Nat.ltb Nat.leb]. auto.
Qed.

(** X24: a file with the documented column names is rejected.  If
    every column name of the first row normalises (lower case, trimmed,
    white space to underscores) to one of the five required names, the
    upload stops with the message that columns are missing, and
    [customer_id] and [transaction_history] are among them. *)
Theorem documented_header_rejected (parseFloat : option string -> number)
  (rows : list Row) :
  (forall key, In key (map fst (hd [] rows)) ->
     In (normalizedKey key) requiredColumns) ->
  exists missing : list string,
    processCSVFile parseFloat rows = MissingColumns missing
    /\ In "customer_id"%string missing
    /\ In "transaction_history"%string missing.
Proof.
  intros Hkeys. apply header_rejected.
  intros key Hkey. apply required_names_lack. apply Hkeys. exact Hkey.
Qed.

Lemma documented_header_rejected_witness :
  map fst readme_row = readme_header
  /\ processCSVFile parse_fifty [readme_row]
     = MissingColumns ["customer_id"; "transaction_history"]%string.
Proof.
  split; [reflexivity |].
  destruct (documented_header_rejected parse_fifty [readme_row])
    as (missing & E & _).
  - intros key Hkey. cbn in Hkey.
    destruct Hkey as [<- | [<- | [<- | [<- | [<- | []]]]]];
      unfold requiredColumns; cbn [In]; vm_compute; tauto.
  - reflexivity.
Defined.

(** The file written by the export is rejected in the same way. *)
Example export_not_accepted (parseFloat : option string -> number)
  (cells : list string) :
  List.length cells = 8%nat ->
  exists missing : list string,
    processCSVFile parseFloat [combine export_header cells]
    = MissingColumns missing
    /\ In "customer_id"%string missing.
Proof.
  intros Hlen.
  destruct cells as [|c1 [|c2 [|c3 [|c4 [|c5 [|c6 [|c7 [|c8 [|c9 cells]]]]]]]]];
    try discriminate.
  destruct (header_rejected parseFloat [combine export_header
              [c1; c2; c3; c4; c5; c6; c7; c8]]) as (missing & E & H & _).
  - intros key Hkey. cbn in Hkey.
    destruct Hkey as [<- | [<- | [<- | [<- | [<- | [<- | [<- | [<- | []]]]]]]]];
      split; reflexivity.
  - exists missing. split; [exact E | exact H].
Qed.
